(** * Field-statistics comparison: a shallow embedding of
      [ppfl_python_worker/analysis/analyzer.py]

    The module extracts fixed-order feature vectors from statistics
    dictionaries, gates a comparison on a leaf-name heuristic over two field
    identifiers, and scores the pair with the 1-D Wasserstein distance.

    Conventions of the embedding:
    - a [dict] with string keys is a [gmap string _]; [d.get(k, dflt)] is
      [default dflt (d !! k)];
    - a Python [str] is a [string] whose characters are read as the code
      points U+0000..U+00FF;
    - numbers are exact rationals ([Qc]); rounding of binary floating point
      is outside the model, the infinities and nan of a [float] are values
      of [pyfloat];
    - [scipy.stats.wasserstein_distance] is a library function whose code
      is not in the repository: the functions that call it take it as a
      parameter;
    - a Python function that can raise or log runs in the monad [M], which
      carries the trace of log records and collaborator calls next to either
      the raised exception or the returned value. *)

From Stdlib Require Import QArith Qcanon Qcabs String Ascii ZArith List.
From stdpp Require Import base option numbers list strings gmap sorting.

Set Warnings "-register-all".
Local Open Scope string_scope.
Local Open Scope list_scope.

(** ** Python values *)

(** Contents of a statistics dictionary. *)
Inductive pyval :=
  | PyNone
  | PyNum (x : Qc)
  | PyStr (s : string)
  | PyDict (d : gmap string pyval).

(** Objects a caller may pass as a field identifier.  The signature says
    [str] with default [None]; integers and [bytes] stand for the malformed
    identifiers on which [split] fails. *)
Inductive pyarg :=
  | ANone
  | AStr (s : string)
  | AInt (n : Z)
  | ABytes (b : list ascii).

Inductive pyfloat :=
  | Finite (x : Qc)
  | PosInf
  | NegInf
  | NaN.

Inductive exn :=
  | AttributeError
  | TypeError
  | IndexError.

Definition num (n : Z) : pyval := PyNum (Qc_of_Z n).

Definition is_num (v : pyval) : bool :=
  match v with PyNum _ => true | _ => false end.

(** [bool(x)] *)
Definition truthy (x : pyarg) : bool :=
  match x with
  | ANone => false
  | AStr s => negb (String.eqb s "")
  | AInt n => negb (Z.eqb n 0)
  | ABytes b => match b with [] => false | _ :: _ => true end
  end.

(** [x == y]; objects of different types are unequal. *)
Definition py_eq (x y : pyarg) : bool :=
  match x, y with
  | ANone, ANone => true
  | AStr s, AStr t => String.eqb s t
  | AInt n, AInt m => Z.eqb n m
  | ABytes b, ABytes c => bool_decide (b = c)
  | _, _ => false
  end.

(** [x is not None] *)
Definition is_not_None (x : pyarg) : bool :=
  match x with ANone => false | _ => true end.

(** ** String methods *)

(** [s.split(sep)] for a one-character separator. *)
Fixpoint str_split (sep : ascii) (s : string) : list string :=
  match s with
  | EmptyString => [EmptyString]
  | String c s' =>
      if Ascii.eqb c sep then EmptyString :: str_split sep s'
      else match str_split sep s' with
           | [] => [String c EmptyString]
           | h :: t => String c h :: t
           end
  end.

(** [c.lower()] on U+0000..U+00FF: A-Z, and the Latin-1 capitals U+00C0..U+00DE
    other than the multiplication sign U+00D7, move up by 32. *)
Definition chr_lower (c : ascii) : ascii :=
  let n := nat_of_ascii c in
  if ((65 <=? n) && (n <=? 90)
      || (192 <=? n) && (n <=? 222) && negb (n =? 215))%nat
  then ascii_of_nat (n + 32) else c.

(** [s.lower()] *)
Fixpoint str_lower (s : string) : string :=
  match s with
  | EmptyString => EmptyString
  | String c s' => String (chr_lower c) (str_lower s')
  end.

(** [needle in hay] *)
Fixpoint str_in (needle hay : string) : bool :=
  String.prefix needle hay
  || match hay with
     | EmptyString => false
     | String _ hay' => str_in needle hay'
     end.

(** ** Exceptions, logging and calls *)

Inductive level := DEBUG | ERROR.

Inductive event :=
  | Log (lvl : level) (msg : string)
  | Call (fn : string).

Definition M (A : Type) : Type := list event * (exn + A).

Definition ret {A} (a : A) : M A := ([], inr a).

Definition bind {A B} (m : M A) (k : A → M B) : M B :=
  match m with
  | (t, inl e) => (t, inl e)
  | (t, inr a) => let '(t', r) := k a in ((t ++ t')%list, r)
  end.

Definition lift {A} (r : exn + A) : M A := ([], r).

Definition emit (ev : event) : M unit := ([ev], inr tt).

(** [try: body except Exception as e: handler(e)] *)
Definition try_except {A} (body : M A) (handler : exn → M A) : M A :=
  match body with
  | (t, inl e) => let '(t', r) := handler e in ((t ++ t')%list, r)
  | (t, inr a) => (t, inr a)
  end.

Definition trace {A} (m : M A) : list event := fst m.
Definition outcome {A} (m : M A) : exn + A := snd m.

Global Instance M_ret : MRet M := @ret.
Global Instance M_bind : MBind M := λ A B k m, bind m k.

Definition logger_debug (msg : string) : M unit := emit (Log DEBUG msg).
Definition logger_error (msg : string) : M unit := emit (Log ERROR msg).

(** ** The field-identity gate *)

(** [x.split("/")] as a method call on an arbitrary object: only [str] has a
    [split] that takes a [str] separator. *)
Definition py_split (x : pyarg) : exn + list string :=
  match x with
  | AStr s => inr (str_split "/" s)
  | ABytes _ => inl TypeError
  | ANone | AInt _ => inl AttributeError
  end.

(** [l[-1]] *)
Definition py_last (l : list string) : exn + string :=
  match last l with
  | Some s => inr s
  | None => inl IndexError
  end.

(** [x.split("/")[-1].lower()] *)
Definition leaf_name (x : pyarg) : exn + string :=
  match py_split x with
  | inl e => inl e
  | inr parts =>
      match py_last parts with
      | inl e => inl e
      | inr s => inr (str_lower s)
      end
  end.

(** The body of the [try] block: [Some b] is [return b], [None] is falling
    out of the block. *)
Definition leaf_rules (candidate_field_id root_field_id : pyarg) : M (option bool) :=
  candidate_field_name ← lift (leaf_name candidate_field_id);
  root_field_name ← lift (leaf_name root_field_id);
  logger_debug "Extracted field names - Candidate: '{candidate_field_name}', Root: '{root_field_name}'";;
  if String.eqb candidate_field_name root_field_name then
    logger_debug "Field names match exactly: '{candidate_field_name}'";;
    mret (Some true)
  else if str_in candidate_field_name root_field_name
          || str_in root_field_name candidate_field_name then
    logger_debug "Field names are similar: {candidate_field_name} and {root_field_name}";;
    mret (Some true)
  else mret None.

Definition should_compare_fields (candidate_field_id root_field_id : pyarg) : M bool :=
  logger_debug "Comparing field IDs - Candidate: '{candidate_field_id}', Root: '{root_field_id}'";;
  if negb (truthy candidate_field_id) || negb (truthy root_field_id) then
    logger_debug "One or both field IDs are empty or None";;
    mret false
  else if py_eq candidate_field_id root_field_id then
    logger_debug "Field IDs match exactly: '{candidate_field_id}'";;
    mret true
  else
    returned ← try_except
      (leaf_rules candidate_field_id root_field_id)
      (λ e, logger_error "Error comparing field IDs: {e}";; mret None);
    match returned with
    | Some b => mret b
    | None =>
        logger_debug "Field IDs are not similar: {candidate_field_id} and {root_field_id}";;
        mret false
    end.

(** ** Vector extraction *)

Global Instance exn_ret : MRet (sum exn) := λ A, inr.
Global Instance exn_bind : MBind (sum exn) := λ A B k r,
  match r with
  | inl e => inl e
  | inr a => k a
  end.

(** [stats.get(k, dflt)] on a [dict]. *)
Definition dict_get (stats : gmap string pyval) (k : string) (dflt : pyval) : pyval :=
  default dflt (stats !! k).

(** [x.get(k, dflt)] as a method call on an arbitrary value: only a [dict]
    has [get]. *)
Definition py_get (x : pyval) (k : string) (dflt : pyval) : exn + pyval :=
  match x with
  | PyDict d => inr (dict_get d k dflt)
  | _ => inl AttributeError
  end.

Definition extract_percentiles (stats : gmap string pyval) : list pyval :=
  let p25 := dict_get stats "p25" (num 0) in
  let p50 := dict_get stats "p50" (num 0) in
  let p75 := dict_get stats "p75" (num 0) in
  [p25; p50; p75].

Definition extract_statistics (stats : gmap string pyval) : exn + list pyval :=
  let min_val := dict_get stats "min" (num 0) in
  let max_val := dict_get stats "max" (num 0) in
  let mean := dict_get stats "mean" (num 0) in
  let median := dict_get stats "median" (num 0) in
  let std_dev := dict_get stats "stdDev" (num 0) in
  let unique_count := dict_get stats "uniqueCount" (num 0) in
  let null_count := dict_get stats "nullCount" (num 0) in
  let percentiles := dict_get stats "percentiles" (PyDict ∅) in
  p25 ← py_get percentiles "p25" (num 0);
  p50 ← py_get percentiles "p50" (num 0);
  p75 ← py_get percentiles "p75" (num 0);
  mret [min_val; max_val; mean; median; std_dev; unique_count; null_count;
        p25; p50; p75].

(** ** The distance engine *)

(** Modelled from the spec: [wasserstein_distance] is imported from
    [scipy.stats]; its code is not part of the sources.  Section 4.3 of the
    specification: both vectors are sorted, each defines an empirical CDF
    with equal weight per element, the two sorted vectors are merged, and
    between consecutive breakpoints the walk accumulates
    [|stepWidth * (fractionA - fractionB)|]. *)
Definition fraction (sorted : list Qc) (x : Qc) : Qc :=
  (Qc_of_Z (Z.of_nat (length (filter (λ y, y ≤ x)%Qc sorted)))
   / Qc_of_Z (Z.of_nat (length sorted)))%Qc.

Fixpoint walk (a b breakpoints : list Qc) : Qc :=
  match breakpoints with
  | x :: rest =>
      match rest with
      | y :: _ => ([ (y - x) * (fraction a x - fraction b x) ] + walk a b rest)%Qc
      | [] => Q2Qc 0
      end
  | [] => Q2Qc 0
  end.

Definition distance (vectorA vectorB : list Qc) : Qc :=
  let a := merge_sort Qcle vectorA in
  let b := merge_sort Qcle vectorB in
  walk a b (list_merge Qcle a b).

(** Modelled from the spec: the same walk of section 4.3 with the range of
    float64 taken into account.  A difference or a sum that reaches
    [float64_overflow] is [inf], a zero fraction times an infinite step is
    [nan]; rounding below that threshold is not modelled.  It is meant for
    vectors of numbers that are themselves within the float64 range. *)
Definition float64_overflow : Qc := Qc_of_Z (2 ^ 1024 - 2 ^ 970).

Definition float64_round (x : Qc) : pyfloat :=
  if decide (float64_overflow ≤ x)%Qc then PosInf
  else if decide (x ≤ - float64_overflow)%Qc then NegInf
  else Finite x.

(** [weight * step] for a finite weight that is not negative. *)
Definition float64_mul (weight : Qc) (step : pyfloat) : pyfloat :=
  match step with
  | Finite d => float64_round (weight * d)
  | PosInf => if decide (weight = Q2Qc 0) then NaN else PosInf
  | NegInf => if decide (weight = Q2Qc 0) then NaN else NegInf
  | NaN => NaN
  end.

Definition float64_add (x y : pyfloat) : pyfloat :=
  match x, y with
  | NaN, _ | _, NaN => NaN
  | PosInf, NegInf | NegInf, PosInf => NaN
  | PosInf, _ | _, PosInf => PosInf
  | NegInf, _ | _, NegInf => NegInf
  | Finite a, Finite b => float64_round (a + b)
  end.

Fixpoint float64_walk (a b breakpoints : list Qc) : pyfloat :=
  match breakpoints with
  | x :: rest =>
      match rest with
      | y :: _ =>
          float64_add
            (float64_mul [fraction a x - fraction b x]%Qc (float64_round (y - x)))
            (float64_walk a b rest)
      | [] => Finite (Q2Qc 0)
      end
  | [] => Finite (Q2Qc 0)
  end.

Definition float64_distance (vectorA vectorB : list Qc) : pyfloat :=
  let a := merge_sort Qcle vectorA in
  let b := merge_sort Qcle vectorB in
  float64_walk a b (list_merge Qcle a b).

(** What the code knows of [wasserstein_distance]: it is called on two
    Python lists and returns a float or raises. *)
Definition engine : Type := list pyval → list pyval → exn + pyfloat.

(** ** The orchestrator *)

(** A call of a collaborator, recorded in the trace. *)
Definition call {A} (fn : string) (m : M A) : M A := emit (Call fn);; m.

Section orchestrator.

Variable wasserstein_distance : engine.

Definition compare_percentiles (candidate_stats root_stats : gmap string pyval) : M pyfloat :=
  candidate_values ← call "extract_percentiles" (mret (extract_percentiles candidate_stats));
  root_values ← call "extract_percentiles" (mret (extract_percentiles root_stats));
  logger_debug "Candidate percentiles: %s";;
  logger_debug "Root percentiles: %s";;
  distance ← call "wasserstein_distance"
    (lift (wasserstein_distance candidate_values root_values));
  logger_debug "Computed Wasserstein distance for percentiles: %f";;
  mret distance.

(** Lines 153-161 of [compare_statistics], after the gate. *)
Definition compare_full_vectors (candidate_stats root_stats : gmap string pyval) : M pyfloat :=
  candidate_values ← call "extract_statistics" (lift (extract_statistics candidate_stats));
  root_values ← call "extract_statistics" (lift (extract_statistics root_stats));
  logger_debug "Candidate statistics: %s";;
  logger_debug "Root statistics: %s";;
  distance ← call "wasserstein_distance"
    (lift (wasserstein_distance candidate_values root_values));
  logger_debug "Computed Wasserstein distance for all statistics: %f";;
  mret distance.

Definition compare_statistics (candidate_stats root_stats : gmap string pyval)
    (candidate_field_id root_field_id : pyarg) : M pyfloat :=
  if is_not_None candidate_field_id && is_not_None root_field_id then
    similar ← call "should_compare_fields"
      (should_compare_fields candidate_field_id root_field_id);
    if negb similar then
      logger_debug "Skipping comparison due to dissimilar field IDs: {candidate_field_id} vs {root_field_id}";;
      mret PosInf
    else compare_full_vectors candidate_stats root_stats
  else compare_full_vectors candidate_stats root_stats.

(** The comparison the specification describes for the ungated case:
    extract both full vectors, hand them to the engine. *)
Definition direct_distance (stats1 stats2 : gmap string pyval) : exn + pyfloat :=
  v1 ← extract_statistics stats1;
  v2 ← extract_statistics stats2;
  wasserstein_distance v1 v2.

End orchestrator.

(** A number below [float64_overflow] in absolute value. *)
Definition float64_number (v : pyval) : option Qc :=
  match v with
  | PyNum x =>
      if decide (- float64_overflow < x ∧ x < float64_overflow)%Qc then Some x
      else None
  | _ => None
  end.

(** An engine for the examples.  On two vectors of numbers below
    [float64_overflow] in absolute value it is [float64_distance]; what scipy
    does with other vectors ([None], strings, integers beyond the float64
    range) is not modelled, and the examples do not go there. *)
Definition example_engine : engine := λ u_values v_values,
  match mapM float64_number u_values, mapM float64_number v_values with
  | Some u, Some v => inr (float64_distance u v)
  | _, _ => inl TypeError
  end.

(** The largest finite float64, and the record whose ten metrics all have
    the value [x]. *)
Definition float64_max : Z := 2 ^ 1024 - 2 ^ 971.

Definition constant_record (x : Z) : gmap string pyval :=
  {[ "min" := num x; "max" := num x; "mean" := num x; "median" := num x;
     "stdDev" := num x; "uniqueCount" := num x; "nullCount" := num x;
     "percentiles" := PyDict {[ "p25" := num x; "p50" := num x; "p75" := num x ]} ]}.

Definition q (n d : Z) : Qc := Q2Qc (Qmake n (Z.to_pos d)).

(** ** Notions used to state the properties *)

Definition leaf_match (x y : string) : bool :=
  String.eqb x y || str_in x y || str_in y x.

Definition gate_value (c r : pyarg) : bool :=
  truthy c && truthy r
  && (py_eq c r
      || match leaf_name c, leaf_name r with
         | inr x, inr y => leaf_match x y
         | _, _ => false
         end).

Definition is_log (ev : event) : bool :=
  match ev with Log _ _ => true | Call _ => false end.

(** The reading of rule 4 with the emptiness guard: two distinct, non-empty
    identifiers with distinct lower-cased leaf names, one of them empty, are
    rejected. *)
Definition empty_leaf_rejected : Prop :=
  ∀ candidateId rootId : string,
    candidateId ≠ "" → rootId ≠ "" → candidateId ≠ rootId →
    leaf_name (AStr candidateId) ≠ leaf_name (AStr rootId) →
    leaf_name (AStr candidateId) = inr "" ∨ leaf_name (AStr rootId) = inr "" →
    outcome (should_compare_fields (AStr candidateId) (AStr rootId)) = inr false.

(** An event that differs from every entry of an explicit trace is not in it. *)
Ltac absent_from_trace :=
  let Hin := fresh "Hin" in
  cbn; intros Hin;
  repeat (apply elem_of_cons in Hin as [Hin|Hin]; [discriminate Hin|]);
  by apply elem_of_nil in Hin.

(** An ungated run on [s1] and [s2]: its result is what the engine gives on
    the two full vectors, and the gate is not called. *)
Definition ungated (wasserstein_distance : engine) (s1 s2 : gmap string pyval)
    (run : M pyfloat) : Prop :=
  outcome run = direct_distance wasserstein_distance s1 s2
  ∧ Call "should_compare_fields" ∉ trace run.

(** The reading of the gating bypass with its last clause: an ungated
    comparison never returns the sentinel. *)
Definition ungated_never_inf (wasserstein_distance : engine) : Prop :=
  ∀ (s1 s2 : gmap string pyval) (supplied : pyarg),
    outcome (compare_statistics wasserstein_distance s1 s2 ANone supplied) ≠ inr PosInf
    ∧ outcome (compare_statistics wasserstein_distance s1 s2 supplied ANone) ≠ inr PosInf.

(** Whether [compare_statistics] stops at the gate. *)
Definition gated_out (candidate_field_id root_field_id : pyarg) : bool :=
  is_not_None candidate_field_id && is_not_None root_field_id
  && match outcome (should_compare_fields candidate_field_id root_field_id) with
     | inr similar => negb similar
     | inl _ => false
     end.

Definition zero_vector : list pyval := [num 0; num 0; num 0].

Definition scalar_keys : list string :=
  ["min"; "max"; "mean"; "median"; "stdDev"; "uniqueCount"; "nullCount"].

Definition percentile_keys : list string := ["p25"; "p50"; "p75"].

Definition numeric_dict (d : gmap string pyval) : Prop :=
  map_Forall (λ _ v, is_num v = true) d.

Definition metric_ok (k : string) (v : pyval) : bool :=
  if String.eqb k "percentiles" then
    match v with
    | PyDict d => bool_decide (numeric_dict d)
    | _ => false
    end
  else is_num v.

(** The [StatisticsRecord] of the data model: every metric is a number, and
    ["percentiles"], when present, is a sub-mapping of numbers.  Any key may
    be absent. *)
Definition statistics_record (stats : gmap string pyval) : bool :=
  bool_decide (map_Forall (λ k v, metric_ok k v = true) stats).

(** The sub-mapping that [extract_statistics] reads the percentiles from. *)
Definition nested_percentiles (stats : gmap string pyval) : gmap string pyval :=
  match stats !! "percentiles" with
  | Some (PyDict d) => d
  | _ => ∅
  end.

Definition partial_record : gmap string pyval :=
  {[ "min" := num 1; "nullCount" := num 4;
     "percentiles" := PyDict {[ "p50" := num 2 ]} ]}.

(** ** Notions used to state further properties of the analyzer *)

Definition is_str (x : pyarg) : bool :=
  match x with AStr _ => true | _ => false end.

Definition is_dict (v : pyval) : bool :=
  match v with PyDict _ => true | _ => false end.

(** The lower-cased last segment of a string identifier, as a total function
    (see [leaf_name_leaf]). *)
Definition str_leaf (s : string) : string :=
  str_lower (default "" (last (str_split "/" s))).

(** The keys [extract_statistics] looks up at the top level. *)
Definition statistics_keys : list string := scalar_keys ++ ["percentiles"].

(** Whether ["percentiles"] is absent from the record or holds a [dict]. *)
Definition percentiles_ok (stats : gmap string pyval) : bool :=
  match stats !! "percentiles" with
  | Some v => is_dict v
  | None => true
  end.

(** The collaborators called during a run, in order. *)
Fixpoint calls (t : list event) : list string :=
  match t with
  | [] => []
  | Call fn :: t' => fn :: calls t'
  | Log _ _ :: t' => calls t'
  end.

Definition api_record (p25 p50 p75 : Z) : gmap string pyval :=
  {[ "min" := num 0; "max" := num 100;
     "percentiles" := PyDict {[ "p25" := num p25; "p50" := num p50; "p75" := num p75 ]} ]}.

Definition is_error_log (ev : event) : bool :=
  match ev with Log ERROR _ => true | _ => false end.

Definition is_call (ev : event) : bool :=
  match ev with Call _ => true | Log _ _ => false end.

(** A listed key is in its list; a key of an explicit list is one of its
    entries. *)
Ltac key_listed := apply list_elem_of_In; simpl; auto 12.

Ltac in_key_list Hk :=
  repeat (apply elem_of_cons in Hk as [->|Hk]; [reflexivity|]);
  by apply elem_of_nil in Hk.

(** * The producer: [ppfl_python_worker/candidate_search_producer.py]

    The script reads its configuration from the process environment, asks
    Keycloak for a token, asks the API for the candidate-search status and
    publishes the answer on a RabbitMQ queue.  The environment is a
    [gmap string string] (after [load_dotenv]).  The collaborators are
    libraries ([requests], [pika], [urllib], [json]) and the services
    behind them; they are the fields of a [world], and every use of one is
    recorded in the trace of the run. *)
Module Producer.

Inductive error :=
  | ValueError (msg : string)
  | HTTPError (status : Z)
  | KeyError (key : string)
  | TypeError
  | External (name : string).

(** What the script uses of a [requests.Response]. *)
Record response := {
  status_code : Z;
  json : error + pyval;
}.

Inductive amqp_op :=
  | BlockingConnection (host : string) (port : Z)
  | channel
  | queue_declare (queue : string) (durable : bool)
  | basic_publish (exchange routing_key body : string) (delivery_mode : Z)
  | close.

Inductive effect :=
  | Post (url : string) (data : gmap string string)
  | Get (url : string) (headers : gmap string string)
  | Amqp (op : amqp_op)
  | Print (queue host : string) (port : Z) (body : string).

Record world := {
  requests_post : string → gmap string string → error + response;
  requests_get : string → gmap string string → error + response;
  (** [None]: the operation succeeds; [Some e]: it raises [e]. *)
  pika : amqp_op → option error;
  urljoin : string → string → string;
  int : string → error + Z;
  json_dumps : pyval → string;
  (** [str(v)] for a value that is not a string. *)
  repr : pyval → string;
}.

Definition IO (A : Type) : Type := list effect * (error + A).

Definition io_ret {A} (a : A) : IO A := ([], inr a).

Definition io_bind {A B} (m : IO A) (k : A → IO B) : IO B :=
  match m with
  | (t, inl e) => (t, inl e)
  | (t, inr a) => let '(t', r) := k a in (t ++ t', r)
  end.

Global Instance IO_ret : MRet IO := @io_ret.
Global Instance IO_bind : MBind IO := λ A B k m, io_bind m k.

Definition raise {A} (e : error) : IO A := ([], inl e).
Definition lift {A} (r : error + A) : IO A := ([], r).
Definition effects {A} (m : IO A) : list effect := fst m.
Definition result {A} (m : IO A) : error + A := snd m.

Definition post (w : world) (url : string) (data : gmap string string) : IO response :=
  ([Post url data], requests_post w url data).

Definition get (w : world) (url : string) (headers : gmap string string) : IO response :=
  ([Get url headers], requests_get w url headers).

Definition amqp (w : world) (op : amqp_op) : IO unit :=
  ([Amqp op], match pika w op with Some e => inl e | None => inr tt end).

Definition print (queue host : string) (port : Z) (body : string) : IO unit :=
  ([Print queue host port body], inr tt).

(** [resp.raise_for_status()] *)
Definition raise_for_status (resp : response) : IO unit :=
  if ((400 <=? status_code resp) && (status_code resp <? 600))%Z
  then raise (HTTPError (status_code resp))
  else mret tt.

(** [v[key]] *)
Definition subscript (v : pyval) (key : string) : error + pyval :=
  match v with
  | PyDict d =>
      match d !! key with
      | Some x => inr x
      | None => inl (KeyError key)
      end
  | _ => inl TypeError
  end.

(** [f"{v}"] *)
Definition format (w : world) (v : pyval) : string :=
  match v with
  | PyStr s => s
  | _ => repr w v
  end.

(** Truthiness of [os.environ.get(name)]: set, and not the empty string. *)
Definition configured (value : option string) : bool :=
  match value with
  | Some s => negb (String.eqb s "")
  | None => false
  end.

(** The string held by a variable that is known to be configured. *)
Definition the (value : option string) : string := default "" value.

Definition get_keycloak_token (w : world) (environ : gmap string string) : IO pyval :=
  let token_url := environ !! "KEYCLOAK_TOKEN_URL" in
  let client_id := environ !! "KEYCLOAK_CLIENT_ID" in
  let username := environ !! "ADMIN_USERNAME" in
  let password := environ !! "ADMIN_PASSWORD" in
  if negb (forallb configured [token_url; client_id; username; password]) then
    raise (ValueError "Missing required Keycloak environment variables.")
  else
    let data : gmap string string :=
      {[ "grant_type" := "password";
         "client_id" := the client_id;
         "username" := the username;
         "password" := the password ]} in
    resp ← post w (the token_url) data;
    raise_for_status resp;;
    token_data ← lift (json resp);
    lift (subscript token_data "access_token").

Definition get_candidate_search_status (w : world) (environ : gmap string string)
    (organization_id experiment_id : string) (token : pyval) : IO pyval :=
  let base_url := default "http://localhost" (environ !! "API_BASE_URL") in
  let endpoint :=
    "/api/fedml-experiments/" +:+ organization_id +:+ "/" +:+ experiment_id
    +:+ "/candidate_search_status" in
  let url := urljoin w base_url endpoint in
  let headers : gmap string string :=
    {[ "Authorization" := "Bearer " +:+ format w token ]} in
  response ← get w url headers;
  raise_for_status response;;
  lift (json response).

Definition publish_to_rabbitmq (w : world) (environ : gmap string string)
    (message : pyval) : IO unit :=
  let rabbitmq_host := default "localhost" (environ !! "RABBITMQ_HOST") in
  rabbitmq_port ← lift (int w (default "5672" (environ !! "RABBITMQ_PORT")));
  let queue_name := default "queue_A" (environ !! "RABBITMQ_QUEUE") in
  amqp w (BlockingConnection rabbitmq_host rabbitmq_port);;
  amqp w channel;;
  amqp w (queue_declare queue_name true);;
  let body := json_dumps w message in
  amqp w (basic_publish "" queue_name body 2);;
  print queue_name rabbitmq_host rabbitmq_port body;;
  amqp w close.

Definition main (w : world) (environ : gmap string string) : IO unit :=
  let organization_id := environ !! "ORGANIZATION_ID" in
  let experiment_id := environ !! "EXPERIMENT_ID" in
  if negb (configured organization_id) || negb (configured experiment_id) then
    raise (ValueError "Missing ORGANIZATION_ID or EXPERIMENT_ID in environment variables.")
  else
    token ← get_keycloak_token w environ;
    status_response ←
      get_candidate_search_status w environ (the organization_id) (the experiment_id) token;
    publish_to_rabbitmq w environ status_response.

(** ** Notions used to state the properties of the producer *)

Definition keycloak_variables : list string :=
  ["KEYCLOAK_TOKEN_URL"; "KEYCLOAK_CLIENT_ID"; "ADMIN_USERNAME"; "ADMIN_PASSWORD"].

(** The form [get_keycloak_token] posts: the password grant. *)
Definition password_grant (environ : gmap string string) : gmap string string :=
  {[ "grant_type" := "password";
     "client_id" := the (environ !! "KEYCLOAK_CLIENT_ID");
     "username" := the (environ !! "ADMIN_USERNAME");
     "password" := the (environ !! "ADMIN_PASSWORD") ]}.

(** The address [get_candidate_search_status] requests. *)
Definition status_url (w : world) (environ : gmap string string) : string :=
  urljoin w (default "http://localhost" (environ !! "API_BASE_URL"))
    ("/api/fedml-experiments/" +:+ the (environ !! "ORGANIZATION_ID") +:+ "/"
     +:+ the (environ !! "EXPERIMENT_ID") +:+ "/candidate_search_status").

(** [raise_for_status] lets the response through. *)
Definition status_ok (resp : response) : bool :=
  ((status_code resp <? 400) || (600 <=? status_code resp))%Z.

Inductive kind :=
  | KPost | KGet | KConnect | KChannel | KDeclare | KPublish | KPrint | KClose.

Definition kind_of (ev : effect) : kind :=
  match ev with
  | Post _ _ => KPost
  | Get _ _ => KGet
  | Amqp (BlockingConnection _ _) => KConnect
  | Amqp channel => KChannel
  | Amqp (queue_declare _ _) => KDeclare
  | Amqp (basic_publish _ _ _ _) => KPublish
  | Print _ _ _ _ => KPrint
  | Amqp close => KClose
  end.

(** The input and output of a run of [main] that succeeds. *)
Definition full_run : list kind :=
  [KPost; KGet; KConnect; KChannel; KDeclare; KPublish; KPrint; KClose].

Definition is_amqp (ev : effect) : bool :=
  match ev with Amqp _ => true | _ => false end.

Definition is_close (ev : effect) : bool :=
  match ev with Amqp close => true | _ => false end.

Definition is_connect (ev : effect) : bool :=
  match ev with Amqp (BlockingConnection _ _) => true | _ => false end.

(** A world for the examples: Keycloak answers 200 with a token, the API
    answers 200 with a status, and the broker accepts every operation but
    [basic_publish] when [broker_up] is [false]. *)
Definition token_response : response :=
  {| status_code := 200;
     json := inr (PyDict {[ "access_token" := PyStr "tok"; "expires_in" := num 300 ]}) |}.

Definition status_response : response :=
  {| status_code := 200; json := inr (PyDict {[ "status" := PyStr "RUNNING" ]}) |}.

Definition example_world (broker_up : bool) : world :=
  {| requests_post := λ _ _, inr token_response;
     requests_get := λ _ _, inr status_response;
     pika := λ op,
       match op with
       | basic_publish _ _ _ _ =>
           if broker_up then None else Some (External "AMQPChannelError")
       | _ => None
       end;
     urljoin := λ base url, base +:+ url;
     int := λ s,
       if String.eqb s "5672" then inr 5672%Z
       else inl (ValueError "invalid literal for int() with base 10");
     json_dumps := λ _, "{status: RUNNING}";
     repr := λ _, "" |}.

Definition example_environ : gmap string string :=
  {[ "ORGANIZATION_ID" := "org1"; "EXPERIMENT_ID" := "exp7";
     "KEYCLOAK_TOKEN_URL" := "http://keycloak/token";
     "KEYCLOAK_CLIENT_ID" := "worker";
     "ADMIN_USERNAME" := "admin"; "ADMIN_PASSWORD" := "secret" ]}.

End Producer.

(** * Properties *)

(** ** Evaluation on concrete inputs *)

Example str_split_trailing : str_split "/" "a/" = ["a"; ""].
Proof. reflexivity. Qed.

Example str_split_path :
  str_split "/" "dataset/table/columnName" = ["dataset"; "table"; "columnName"].
Proof. reflexivity. Qed.

Example str_split_empty : str_split "/" "" = [""].
Proof. reflexivity. Qed.

Example str_lower_UserId : str_lower "UserId" = "userid".
Proof. reflexivity. Qed.

Example str_in_name_surname : str_in "name" "surname" = true.
Proof. reflexivity. Qed.

Example gate_name_surname :
  outcome (should_compare_fields (AStr "x/name") (AStr "y/surname")) = inr true.
Proof. reflexivity. Qed.

Example gate_foo_bar :
  outcome (should_compare_fields (AStr "a/foo") (AStr "b/bar")) = inr false.
Proof. reflexivity. Qed.

Example gate_int :
  should_compare_fields (AInt 5) (AStr "b/bar")
  = ([Log DEBUG "Comparing field IDs - Candidate: '{candidate_field_id}', Root: '{root_field_id}'";
      Log ERROR "Error comparing field IDs: {e}";
      Log DEBUG "Field IDs are not similar: {candidate_field_id} and {root_field_id}"],
     inr false).
Proof. reflexivity. Qed.

Example scenario3 :
  outcome (compare_statistics example_engine ∅ ∅ (AStr "x/name") (AStr "y/surname"))
  = inr (Finite (Q2Qc 0)).
Proof. vm_compute. reflexivity. Qed.

Example distance_example :
  distance [Qc_of_Z 0; Qc_of_Z 1; Qc_of_Z 3] [Qc_of_Z 5; Qc_of_Z 6; Qc_of_Z 8] = Qc_of_Z 5.
Proof. apply Qc_is_canon. vm_compute. reflexivity. Qed.

Example distance_unequal_lengths :
  distance [Qc_of_Z 0; Qc_of_Z 1] [Qc_of_Z 0; Qc_of_Z 1; Qc_of_Z 2] = q 1 2.
Proof. apply Qc_is_canon. vm_compute. reflexivity. Qed.

(** ** Strings *)

Lemma str_split_nonempty sep s : str_split sep s ≠ [].
Proof.
  destruct s as [|c s]; simpl; [discriminate|].
  destruct (Ascii.eqb c sep); [discriminate|].
  destruct (str_split sep s); discriminate.
Qed.

Lemma py_last_split sep s : ∃ leaf, py_last (str_split sep s) = inr leaf.
Proof.
  unfold py_last.
  destruct (last (str_split sep s)) as [leaf|] eqn:E; [by exists leaf|].
  apply last_None in E. by apply str_split_nonempty in E.
Qed.

Lemma leaf_name_str s : ∃ leaf, leaf_name (AStr s) = inr leaf.
Proof.
  unfold leaf_name; simpl.
  destruct (py_last_split "/" s) as [leaf ->]. by eexists.
Qed.

(** On two strings the [try] block raises nothing: [split] never returns an
    empty list, so the index [-1] is always in range. *)
Lemma leaf_rules_str s t : ∃ o, outcome (leaf_rules (AStr s) (AStr t)) = inr o.
Proof.
  unfold leaf_rules.
  destruct (leaf_name_str s) as [x ->], (leaf_name_str t) as [y ->].
  cbn. destruct (String.eqb x y); [by eexists|].
  cbn. destruct (str_in x y || str_in y x); by eexists.
Qed.

Lemma str_in_empty hay : str_in "" hay = true.
Proof. by destruct hay. Qed.

Lemma str_lower_empty s : str_lower s = "" ↔ s = "".
Proof. by destruct s. Qed.

(** ** The gate as a function of its arguments *)

Lemma should_compare_fields_outcome c r :
  outcome (should_compare_fields c r) = inr (gate_value c r).
Proof.
  unfold should_compare_fields, gate_value, leaf_rules, leaf_match.
  destruct (truthy c), (truthy r); try reflexivity.
  destruct (py_eq c r); [reflexivity|].
  destruct (leaf_name c) as [e|x]; [reflexivity|].
  destruct (leaf_name r) as [e|y]; [reflexivity|].
  cbn. destruct (String.eqb x y); [reflexivity|].
  cbn. by destruct (str_in x y), (str_in y x).
Qed.

Lemma should_compare_fields_trace c r :
  forallb is_log (trace (should_compare_fields c r)) = true.
Proof.
  unfold should_compare_fields, leaf_rules.
  destruct (truthy c), (truthy r); try reflexivity.
  destruct (py_eq c r); [reflexivity|].
  destruct (leaf_name c) as [e|x]; [reflexivity|].
  destruct (leaf_name r) as [e|y]; [reflexivity|].
  cbn. destruct (String.eqb x y); [reflexivity|].
  cbn. by destruct (str_in x y), (str_in y x).
Qed.

Lemma should_compare_fields_no_call c r fn :
  Call fn ∉ trace (should_compare_fields c r).
Proof.
  intros Hin. pose proof (should_compare_fields_trace c r) as Hall.
  rewrite forallb_forall in Hall.
  apply list_elem_of_In, Hall in Hin. discriminate.
Qed.

Lemma py_eq_sym x y : py_eq x y = py_eq y x.
Proof.
  destruct x, y; simpl; try reflexivity.
  - apply String.eqb_sym.
  - apply Z.eqb_sym.
  - apply bool_decide_ext. split; congruence.
Qed.

Lemma leaf_match_sym x y : leaf_match x y = leaf_match y x.
Proof.
  unfold leaf_match. rewrite (String.eqb_sym x y).
  by destruct (String.eqb y x), (str_in x y), (str_in y x).
Qed.

Lemma gate_value_sym c r : gate_value c r = gate_value r c.
Proof.
  unfold gate_value. rewrite (py_eq_sym c r), (andb_comm (truthy c)).
  destruct (leaf_name c), (leaf_name r); try reflexivity.
  by rewrite leaf_match_sym.
Qed.

Lemma py_eq_refl x : py_eq x x = true.
Proof.
  destruct x; simpl; [reflexivity | apply String.eqb_refl | apply Z.eqb_refl |].
  by apply bool_decide_eq_true.
Qed.

(** X1: gate reflexivity.  An identifier that is truthy (a non-empty string,
    or any other object that is not empty, zero or [None]) is comparable
    with itself. *)
Lemma should_compare_fields_refl x :
  truthy x = true → outcome (should_compare_fields x x) = inr true.
Proof.
  intros Hx. rewrite should_compare_fields_outcome. unfold gate_value.
  by rewrite Hx, py_eq_refl.
Qed.

(** X2: the gate rejects emptiness: an empty or absent identifier on either
    side gives [False], whatever the other side is. *)
Lemma should_compare_fields_empty x y :
  truthy x = false ∨ truthy y = false →
  outcome (should_compare_fields x y) = inr false.
Proof.
  intros Hxy. rewrite should_compare_fields_outcome. unfold gate_value.
  destruct Hxy as [-> | ->]; [reflexivity | by rewrite andb_false_r].
Qed.

(** ** The gate: claims *)

(** C2, as stated in the specification, fails: the gate does not answer
    [True] on ["data/user_id"] and ["meta/UserId"]. *)
Lemma user_id_UserId_not_accepted :
  outcome (should_compare_fields (AStr "data/user_id") (AStr "meta/UserId"))
  ≠ inr true.
Proof. discriminate. Qed.

(** C2, amended: on ["data/user_id"] and ["meta/UserId"] the lower-cased leaf
    names are ["user_id"] and ["userid"]; they are not equal, neither occurs
    in the other, and the gate answers [False]. *)
Theorem user_id_UserId_rejected :
  leaf_name (AStr "data/user_id") = inr "user_id"
  ∧ leaf_name (AStr "meta/UserId") = inr "userid"
  ∧ String.eqb "user_id" "userid" = false
  ∧ str_in "user_id" "userid" = false
  ∧ str_in "userid" "user_id" = false
  ∧ outcome (should_compare_fields (AStr "data/user_id") (AStr "meta/UserId"))
    = inr false.
Proof. repeat split. Qed.

(** C3, as stated in the specification, fails: ["a/"] has the empty leaf
    name, ["b/c"] has leaf name ["c"], and the gate answers [True]. *)
Lemma empty_leaf_not_rejected : ¬ empty_leaf_rejected.
Proof.
  intros H. specialize (H "a/" "b/c").
  discriminate H; first [discriminate | by left].
Qed.

(** C3, amended: the containment rule has no emptiness guard.  For two
    distinct, non-empty identifiers with distinct lower-cased leaf names, if
    at least one leaf name is the empty string then the gate answers [True],
    the empty string being contained in every string. *)
Theorem empty_leaf_accepted (candidateId rootId : string) :
  candidateId ≠ "" → rootId ≠ "" → candidateId ≠ rootId →
  leaf_name (AStr candidateId) ≠ leaf_name (AStr rootId) →
  leaf_name (AStr candidateId) = inr "" ∨ leaf_name (AStr rootId) = inr "" →
  outcome (should_compare_fields (AStr candidateId) (AStr rootId)) = inr true.
Proof.
  intros Hc Hr Hne _ Hleaf.
  rewrite should_compare_fields_outcome. f_equal.
  unfold gate_value, leaf_match; simpl.
  apply String.eqb_neq in Hc, Hr, Hne. rewrite Hc, Hr, Hne; simpl.
  destruct (leaf_name_str candidateId) as [x Hx], (leaf_name_str rootId) as [y Hy].
  rewrite Hx, Hy in *.
  destruct Hleaf as [[= ->]|[= ->]]; rewrite str_in_empty.
  - by rewrite orb_true_r.
  - apply orb_true_r.
Qed.

Lemma empty_leaf_accepted_witness :
  outcome (should_compare_fields (AStr "a/") (AStr "b/c")) = inr true.
Proof.
  apply (empty_leaf_accepted "a/" "b/c"); first [discriminate | by left].
Defined.

(** C7: the gate is fail-soft.  On every pair of arguments it returns a
    Boolean, no exception escapes; and when the [try] block is reached and
    splitting or normalising an identifier raises, the failure is logged at
    level ERROR and the gate returns [False]. *)
Theorem should_compare_fields_fail_soft (c r : pyarg) :
  (∃ b, outcome (should_compare_fields c r) = inr b)
  ∧ ∀ e, truthy c = true → truthy r = true → py_eq c r = false →
      outcome (leaf_rules c r) = inl e →
      outcome (should_compare_fields c r) = inr false
      ∧ Log ERROR "Error comparing field IDs: {e}"
        ∈ trace (should_compare_fields c r).
Proof.
  split.
  - eexists. apply should_compare_fields_outcome.
  - intros e Hc Hr Hne.
    unfold should_compare_fields. rewrite Hc, Hr, Hne; simpl.
    destruct (leaf_rules c r) as [t [e'|o]]; [|discriminate].
    intros _. cbn. split; [reflexivity|].
    unfold trace; cbn. set_solver.
Qed.

Lemma should_compare_fields_fail_soft_witness :
  outcome (should_compare_fields (AInt 5) (AStr "b/bar")) = inr false
  ∧ Log ERROR "Error comparing field IDs: {e}"
    ∈ trace (should_compare_fields (AInt 5) (AStr "b/bar")).
Proof.
  apply (proj2 (should_compare_fields_fail_soft (AInt 5) (AStr "b/bar"))
           AttributeError); reflexivity.
Defined.

(** C10: the gate is symmetric in its two arguments, for strings, [None]
    and malformed identifiers alike. *)
Theorem should_compare_fields_sym (a b : pyarg) :
  outcome (should_compare_fields a b) = outcome (should_compare_fields b a).
Proof.
  rewrite !should_compare_fields_outcome. f_equal. apply gate_value_sym.
Qed.

(** ** The orchestrator: claims *)

Lemma compare_full_vectors_outcome (wd : engine) s1 s2 :
  outcome (compare_full_vectors wd s1 s2) = direct_distance wd s1 s2.
Proof.
  unfold compare_full_vectors, direct_distance.
  destruct (extract_statistics s1) as [e|v1]; [reflexivity|].
  destruct (extract_statistics s2) as [e|v2]; [reflexivity|].
  cbn. by destruct (wd v1 v2).
Qed.

Lemma compare_full_vectors_no_gate (wd : engine) s1 s2 :
  Call "should_compare_fields" ∉ trace (compare_full_vectors wd s1 s2).
Proof.
  unfold compare_full_vectors.
  destruct (extract_statistics s1) as [e|v1]; [absent_from_trace|].
  destruct (extract_statistics s2) as [e|v2]; [absent_from_trace|].
  cbn. destruct (wd v1 v2); absent_from_trace.
Qed.

(** C1: when both identifiers are supplied and the gate answers [False],
    [compare_statistics] returns the positive-infinity sentinel whatever the
    two statistics dictionaries hold; its trace is the call of the gate, the
    gate's own log records and the "Skipping" record, so neither
    [extract_statistics] nor [wasserstein_distance] is called. *)
Theorem compare_statistics_sentinel (wasserstein_distance : engine)
    (candidate_stats root_stats : gmap string pyval)
    (candidate_field_id root_field_id : pyarg) :
  candidate_field_id ≠ ANone → root_field_id ≠ ANone →
  outcome (should_compare_fields candidate_field_id root_field_id) = inr false →
  let run :=
    compare_statistics wasserstein_distance candidate_stats root_stats
      candidate_field_id root_field_id in
  outcome run = inr PosInf
  ∧ trace run
    = Call "should_compare_fields"
      :: trace (should_compare_fields candidate_field_id root_field_id)
      ++ [Log DEBUG "Skipping comparison due to dissimilar field IDs: {candidate_field_id} vs {root_field_id}"]
  ∧ (∀ fn, Call fn ∈ trace run → fn = "should_compare_fields").
Proof.
  intros Hc Hr Hgate run.
  assert (Hsome : is_not_None candidate_field_id && is_not_None root_field_id = true)
    by by destruct candidate_field_id, root_field_id.
  pose proof (should_compare_fields_no_call candidate_field_id root_field_id) as Hlogs.
  subst run. unfold compare_statistics, call. rewrite Hsome.
  destruct (should_compare_fields candidate_field_id root_field_id)
    as [t [e|similar]]; [discriminate|].
  injection Hgate as ->. cbn in *.
  split; [reflexivity|]. split; [reflexivity|].
  intros fn [[= ->]|Hin]%elem_of_cons; [reflexivity|].
  apply elem_of_app in Hin as [Hin|Hin%list_elem_of_singleton];
    [by apply Hlogs in Hin | discriminate].
Qed.

Lemma compare_statistics_sentinel_witness :
  let run :=
    compare_statistics example_engine {[ "min" := num 1 ]} ∅ (AStr "a/foo") (AStr "b/bar") in
  outcome run = inr PosInf
  ∧ trace run
    = Call "should_compare_fields"
      :: trace (should_compare_fields (AStr "a/foo") (AStr "b/bar"))
      ++ [Log DEBUG "Skipping comparison due to dissimilar field IDs: {candidate_field_id} vs {root_field_id}"]
  ∧ (∀ fn, Call fn ∈ trace run → fn = "should_compare_fields").
Proof.
  apply (compare_statistics_sentinel example_engine {[ "min" := num 1 ]} ∅
           (AStr "a/foo") (AStr "b/bar"));
    [discriminate | discriminate | reflexivity].
Defined.

(** C5, as stated in the specification, fails in its last clause: an
    ungated comparison can return positive infinity.  With the engine
    computing in the float64 range, the record whose metrics are all the
    largest finite float and the record whose metrics are all its opposite
    are at distance [inf]: the step between the two values overflows. *)
Lemma compare_statistics_ungated_inf : ¬ ungated_never_inf example_engine.
Proof.
  intros H.
  destruct (H (constant_record float64_max) (constant_record (- float64_max)) ANone)
    as [Hnever _].
  apply Hnever. vm_compute. reflexivity.
Qed.

(** C5, amended: with both identifiers omitted, or with either one omitted,
    [compare_statistics] returns what the engine gives on the two full
    extracted vectors, whatever the engine is, and the gate is not
    consulted; it returns positive infinity only when that is the engine's
    own result. *)
Theorem compare_statistics_bypass (wasserstein_distance : engine)
    (stats1 stats2 : gmap string pyval) (supplied : pyarg) :
  ungated wasserstein_distance stats1 stats2
    (compare_statistics wasserstein_distance stats1 stats2 ANone ANone)
  ∧ ungated wasserstein_distance stats1 stats2
      (compare_statistics wasserstein_distance stats1 stats2 ANone supplied)
  ∧ ungated wasserstein_distance stats1 stats2
      (compare_statistics wasserstein_distance stats1 stats2 supplied ANone).
Proof.
  assert (Hfull : ungated wasserstein_distance stats1 stats2
                    (compare_full_vectors wasserstein_distance stats1 stats2)).
  { unfold ungated. rewrite compare_full_vectors_outcome.
    auto using compare_full_vectors_no_gate. }
  unfold compare_statistics; simpl. rewrite andb_false_r. auto.
Qed.

Example ungated_inf_run :
  outcome (compare_statistics example_engine (constant_record float64_max)
             (constant_record (- float64_max)) ANone ANone) = inr PosInf.
Proof. vm_compute. reflexivity. Qed.

(** ** Vector extraction: claims *)

Lemma numeric_dict_get d k : numeric_dict d → is_num (dict_get d k (num 0)) = true.
Proof.
  intros Hd. unfold dict_get.
  destruct (d !! k) as [v|] eqn:E; [exact (Hd k v E) | reflexivity].
Qed.

Lemma statistics_record_metric stats k :
  statistics_record stats = true → k ≠ "percentiles" →
  is_num (dict_get stats k (num 0)) = true.
Proof.
  intros Hrec%bool_decide_eq_true Hk. unfold dict_get.
  destruct (stats !! k) as [v|] eqn:E; [|reflexivity].
  apply Hrec in E. unfold metric_ok in E.
  apply String.eqb_neq in Hk. by rewrite Hk in E.
Qed.

Lemma statistics_record_percentiles stats :
  statistics_record stats = true →
  dict_get stats "percentiles" (PyDict ∅) = PyDict (nested_percentiles stats)
  ∧ numeric_dict (nested_percentiles stats).
Proof.
  intros Hrec%bool_decide_eq_true. unfold dict_get, nested_percentiles.
  destruct (stats !! "percentiles") as [v|] eqn:E; simpl.
  - apply Hrec in E. unfold metric_ok in E; simpl in E.
    destruct v; try discriminate E. by apply bool_decide_eq_true in E.
  - split; [reflexivity | apply map_Forall_empty].
Qed.

(** C4: on every statistics record, whichever keys it lacks,
    [extract_statistics] returns (it does not raise) a list of 10 numbers and
    [extract_percentiles] a list of 3 numbers, in the declared order; a slot
    holds the metric when the key is present and the number 0 when it is
    missing. *)
Theorem extraction_total (stats : gmap string pyval) :
  statistics_record stats = true →
  (∃ v, extract_statistics stats = inr v
        ∧ length v = 10
        ∧ forallb is_num v = true
        ∧ v = ((λ k, default (num 0) (stats !! k)) <$> scalar_keys)
              ++ ((λ k, default (num 0) (nested_percentiles stats !! k))
                    <$> percentile_keys))
  ∧ length (extract_percentiles stats) = 3
  ∧ forallb is_num (extract_percentiles stats) = true
  ∧ extract_percentiles stats
    = (λ k, default (num 0) (stats !! k)) <$> percentile_keys.
Proof.
  intros Hrec.
  destruct (statistics_record_percentiles stats Hrec) as [Hsub Hnum].
  split; [|split; [reflexivity|split; [|reflexivity]]].
  - unfold extract_statistics. rewrite Hsub. simpl.
    eexists. split; [reflexivity|]. split; [reflexivity|]. split; [|reflexivity].
    simpl. rewrite !statistics_record_metric, !numeric_dict_get by done.
    reflexivity.
  - unfold extract_percentiles. simpl.
    by rewrite !statistics_record_metric.
Qed.

Lemma extraction_total_witness :
  (∃ v, extract_statistics partial_record = inr v
        ∧ length v = 10
        ∧ forallb is_num v = true
        ∧ v = ((λ k, default (num 0) (partial_record !! k)) <$> scalar_keys)
              ++ ((λ k, default (num 0) (nested_percentiles partial_record !! k))
                    <$> percentile_keys))
  ∧ length (extract_percentiles partial_record) = 3
  ∧ forallb is_num (extract_percentiles partial_record) = true
  ∧ extract_percentiles partial_record
    = (λ k, default (num 0) (partial_record !! k)) <$> percentile_keys.
Proof. apply (extraction_total partial_record). vm_compute. reflexivity. Defined.

Example extract_statistics_partial :
  extract_statistics partial_record
  = inr [num 1; num 0; num 0; num 0; num 0; num 0; num 4; num 0; num 2; num 0].
Proof. reflexivity. Qed.

Example extract_statistics_empty :
  extract_statistics ∅ = inr (replicate 10 (num 0)).
Proof. reflexivity. Qed.

(** Outside the data model: a ["percentiles"] entry that is not a mapping
    makes [extract_statistics] raise. *)
Example extract_statistics_null_percentiles :
  extract_statistics {[ "percentiles" := PyNone ]} = inl AttributeError.
Proof. reflexivity. Qed.

(** C6: [extract_percentiles] reads ["p25"], ["p50"] and ["p75"] at the top
    level of the record, each defaulting to 0; whatever is stored under
    ["percentiles"] does not change the result.  The record
    [{"p25": 1, "p50": 2, "p75": 3}] gives [[1, 2, 3]], and a record with
    nothing but a nested sub-mapping gives [[0, 0, 0]]. *)
Theorem extract_percentiles_top_level :
  (∀ stats : gmap string pyval,
     extract_percentiles stats
     = [default (num 0) (stats !! "p25"); default (num 0) (stats !! "p50");
        default (num 0) (stats !! "p75")])
  ∧ (∀ (stats : gmap string pyval) (nested : pyval),
       extract_percentiles (<["percentiles" := nested]> stats)
       = extract_percentiles stats)
  ∧ extract_percentiles {[ "p25" := num 1; "p50" := num 2; "p75" := num 3 ]}
    = [num 1; num 2; num 3]
  ∧ (∀ d : gmap string pyval,
       extract_percentiles {[ "percentiles" := PyDict d ]} = [num 0; num 0; num 0]).
Proof.
  split; [reflexivity|]. split; [|split; [reflexivity|]].
  - intros stats nested. unfold extract_percentiles, dict_get.
    by rewrite !lookup_insert_ne.
  - intros d. unfold extract_percentiles, dict_get.
    by rewrite !lookup_singleton_ne.
Qed.

(** ** The distance engine: claims *)

Lemma merged_breakpoints_comm (A B : list Qc) :
  list_merge Qcle (merge_sort Qcle A) (merge_sort Qcle B)
  = list_merge Qcle (merge_sort Qcle B) (merge_sort Qcle A).
Proof.
  apply (Sorted_unique Qcle).
  - apply (Sorted_list_merge _); apply (Sorted_merge_sort _).
  - apply (Sorted_list_merge _); apply (Sorted_merge_sort _).
  - rewrite !merge_Permutation. apply Permutation_app_comm.
Qed.

Lemma walk_comm (a b breakpoints : list Qc) :
  walk a b breakpoints = walk b a breakpoints.
Proof.
  induction breakpoints as [|x [|y rest] IH]; [reflexivity..|].
  change (([(y - x) * (fraction a x - fraction b x)] + walk a b (y :: rest))%Qc
          = ([(y - x) * (fraction b x - fraction a x)] + walk b a (y :: rest))%Qc).
  rewrite IH. f_equal.
  rewrite <- (Qcabs_opp ((y - x) * (fraction b x - fraction a x))).
  f_equal. ring.
Qed.

Lemma fraction_Permutation (a b : list Qc) (x : Qc) :
  a ≡ₚ b → fraction a x = fraction b x.
Proof. intros Hab. unfold fraction. by rewrite Hab. Qed.

Lemma walk_same_fractions (a b breakpoints : list Qc) :
  (∀ x, fraction a x = fraction b x) → walk a b breakpoints = Q2Qc 0.
Proof.
  intros Hfrac.
  induction breakpoints as [|x [|y rest] IH]; [reflexivity..|].
  change (([(y - x) * (fraction a x - fraction b x)] + walk a b (y :: rest))%Qc
          = Q2Qc 0).
  rewrite IH, Hfrac.
  replace ((y - x) * (fraction b x - fraction b x))%Qc with (Q2Qc 0) by ring.
  apply Qc_is_canon. reflexivity.
Qed.

(** C8: the distance is symmetric, for vectors of any two lengths. *)
Theorem distance_sym (A B : list Qc) : distance A B = distance B A.
Proof.
  unfold distance. rewrite (merged_breakpoints_comm A B). apply walk_comm.
Qed.

Example distance_sym_unequal_lengths :
  distance [Qc_of_Z 0; Qc_of_Z 1; Qc_of_Z 2] [Qc_of_Z 0; Qc_of_Z 1] = q 1 2.
Proof. apply Qc_is_canon. vm_compute. reflexivity. Qed.

(** C9: the distance of a vector to itself is zero, and so is the distance
    between two vectors that are permutations of each other. *)
Theorem distance_zero_on_permutations (V W : list Qc) :
  distance V V = Q2Qc 0 ∧ (V ≡ₚ W → distance V W = Q2Qc 0).
Proof.
  split.
  - unfold distance. by apply walk_same_fractions.
  - intros HVW. unfold distance. apply walk_same_fractions.
    intros x. apply fraction_Permutation.
    by rewrite !merge_sort_Permutation.
Qed.

Lemma distance_zero_on_permutations_witness :
  distance [Qc_of_Z 1; Qc_of_Z 2; Qc_of_Z 2] [Qc_of_Z 2; Qc_of_Z 1; Qc_of_Z 2]
  = Q2Qc 0.
Proof.
  apply (distance_zero_on_permutations
           [Qc_of_Z 1; Qc_of_Z 2; Qc_of_Z 2] [Qc_of_Z 2; Qc_of_Z 1; Qc_of_Z 2]).
  apply perm_swap.
Defined.


(** * Further properties of the analyzer *)

(** ** Strings *)

Lemma leaf_name_leaf s : leaf_name (AStr s) = inr (str_leaf s).
Proof.
  unfold leaf_name, str_leaf, py_last; simpl.
  destruct (last (str_split "/" s)) as [leaf|] eqn:E; [reflexivity|].
  apply last_None in E. by apply str_split_nonempty in E.
Qed.

Lemma prefix_refl x : String.prefix x x = true.
Proof.
  induction x as [|a x IH]; simpl; [reflexivity|].
  by destruct (ascii_dec a a).
Qed.

Lemma str_in_refl x : str_in x x = true.
Proof.
  destruct x as [|a x]; [reflexivity|].
  change (String.prefix (String a x) (String a x) || str_in (String a x) x = true).
  by rewrite prefix_refl.
Qed.

Lemma chr_lower_slash c : Ascii.eqb (chr_lower c) "/" = Ascii.eqb c "/".
Proof. destruct c as [[] [] [] [] [] [] [] []]; reflexivity. Qed.

Lemma chr_lower_idemp c : chr_lower (chr_lower c) = chr_lower c.
Proof. destruct c as [[] [] [] [] [] [] [] []]; reflexivity. Qed.

Lemma str_lower_idemp s : str_lower (str_lower s) = str_lower s.
Proof. induction s as [|c s IH]; simpl; [reflexivity|]. by rewrite chr_lower_idemp, IH. Qed.

Lemma str_split_lower s :
  str_split "/" (str_lower s) = str_lower <$> str_split "/" s.
Proof.
  induction s as [|c s IH]; simpl; [reflexivity|].
  rewrite chr_lower_slash, IH.
  destruct (Ascii.eqb c "/"); [reflexivity|].
  by destruct (str_split "/" s).
Qed.

Lemma str_leaf_lower s : str_leaf (str_lower s) = str_leaf s.
Proof.
  unfold str_leaf. rewrite str_split_lower, fmap_last.
  destruct (last (str_split "/" s)); simpl; [apply str_lower_idemp | reflexivity].
Qed.

Lemma str_split_app sep p l :
  str_split sep (p +:+ String sep l) = str_split sep p ++ str_split sep l.
Proof.
  induction p as [|c p IH]; simpl.
  - by rewrite Ascii.eqb_refl.
  - rewrite IH. destruct (Ascii.eqb c sep); [reflexivity|].
    pose proof (str_split_nonempty sep p). by destruct (str_split sep p).
Qed.

Lemma str_leaf_app p l : str_leaf (p +:+ String "/" l) = str_leaf l.
Proof.
  unfold str_leaf. rewrite str_split_app, last_app.
  destruct (last (str_split "/" l)) eqn:E; [reflexivity|].
  apply last_None in E. by apply str_split_nonempty in E.
Qed.

Lemma str_nonempty_app p c l : String.eqb (p +:+ String c l) "" = false.
Proof. by destruct p. Qed.

(** ** The gate *)

Lemma should_compare_fields_refl_witness :
  outcome (should_compare_fields (AStr "dataset/table/columnName")
             (AStr "dataset/table/columnName")) = inr true.
Proof. apply (should_compare_fields_refl (AStr "dataset/table/columnName")). reflexivity. Defined.

Lemma should_compare_fields_empty_witness :
  outcome (should_compare_fields (AStr "") (AStr "b/bar")) = inr false.
Proof. apply (should_compare_fields_empty (AStr "") (AStr "b/bar")). by left. Defined.

Lemma gate_value_strings (c r : string) :
  gate_value (AStr c) (AStr r)
  = negb (String.eqb c "") && negb (String.eqb r "")
    && (str_in (str_leaf c) (str_leaf r) || str_in (str_leaf r) (str_leaf c)).
Proof.
  unfold gate_value, leaf_match. rewrite !leaf_name_leaf. simpl. f_equal.
  destruct (String.eqb_spec c r) as [->|_]; simpl.
  - by rewrite str_in_refl.
  - destruct (String.eqb_spec (str_leaf c) (str_leaf r)) as [->|_]; simpl;
      [by rewrite str_in_refl | reflexivity].
Qed.

(** X3: on two strings the answer of the gate is decided by containment
    alone.  It is [True] exactly when both identifiers are non-empty and one
    lower-cased last segment occurs in the other; the tests for equal
    identifiers and for equal leaf names never change the answer. *)
Theorem should_compare_fields_containment (c r : string) :
  outcome (should_compare_fields (AStr c) (AStr r))
  = inr (negb (String.eqb c "") && negb (String.eqb r "")
         && (str_in (str_leaf c) (str_leaf r) || str_in (str_leaf r) (str_leaf c))).
Proof. by rewrite should_compare_fields_outcome, gate_value_strings. Qed.

(** X4: an identifier that is not a string is comparable with an equal
    object only.  Whatever the other argument, the gate answers [True] when
    the identifier is truthy and [==] holds, and [False] otherwise; so
    [should_compare_fields(5, 5)] is [True] and [should_compare_fields(5, "5")]
    is [False]. *)
Theorem should_compare_fields_not_str (x y : pyarg) :
  is_str x = false →
  outcome (should_compare_fields x y) = inr (truthy x && py_eq x y)
  ∧ outcome (should_compare_fields y x) = inr (truthy x && py_eq x y).
Proof.
  intros Hx.
  rewrite !should_compare_fields_outcome, (gate_value_sym y x).
  enough (gate_value x y = truthy x && py_eq x y) as -> by done.
  unfold gate_value.
  destruct x as [|s|n|b]; try discriminate Hx; simpl; try reflexivity.
  - destruct y as [|t|m|c]; simpl; rewrite ?andb_false_r; try reflexivity.
    rewrite orb_false_r.
    destruct (Z.eqb_spec n m) as [->|_]; [|by rewrite !andb_false_r].
    by destruct (m =? 0)%Z.
  - destruct y as [|t|m|c]; simpl; rewrite ?andb_false_r; try reflexivity.
    rewrite orb_false_r.
    case_bool_decide as Hbc; [subst c|by rewrite !andb_false_r].
    by destruct b.
Qed.

Lemma should_compare_fields_not_str_witness :
  outcome (should_compare_fields (AInt 5) (AInt 5)) = inr true
  ∧ outcome (should_compare_fields (AStr "5") (AInt 5)) = inr false.
Proof.
  split.
  - apply (should_compare_fields_not_str (AInt 5) (AInt 5)). reflexivity.
  - apply (should_compare_fields_not_str (AInt 5) (AStr "5")). reflexivity.
Defined.

(** X5: the gate is insensitive to case.  Replacing either string
    identifier, or both, by its lower-cased form does not change the answer,
    although the test for equal identifiers itself is case sensitive. *)
Theorem should_compare_fields_lower (c r : string) :
  outcome (should_compare_fields (AStr (str_lower c)) (AStr r))
  = outcome (should_compare_fields (AStr c) (AStr r))
  ∧ outcome (should_compare_fields (AStr c) (AStr (str_lower r)))
    = outcome (should_compare_fields (AStr c) (AStr r))
  ∧ outcome (should_compare_fields (AStr (str_lower c)) (AStr (str_lower r)))
    = outcome (should_compare_fields (AStr c) (AStr r)).
Proof.
  assert (Hempty : ∀ s, String.eqb (str_lower s) "" = String.eqb s "")
    by by intros [|a s].
  rewrite !should_compare_fields_outcome, !gate_value_strings, !str_leaf_lower, !Hempty.
  done.
Qed.

Example gate_case_insensitive :
  outcome (should_compare_fields (AStr "Sales/Orders/CUSTOMER_ID") (AStr "crm/customer_id"))
  = inr true.
Proof. reflexivity. Qed.

(** X6: the gate looks only at what follows the last ["/"].  For identifiers
    [p1/l1] and [p2/l2] the answer is the containment test on the lower-cased
    last segments of [l1] and [l2], whatever the paths [p1] and [p2] are. *)
Theorem should_compare_fields_path_irrelevant (p1 p2 l1 l2 : string) :
  outcome (should_compare_fields (AStr (p1 +:+ "/" +:+ l1)) (AStr (p2 +:+ "/" +:+ l2)))
  = inr (str_in (str_leaf l1) (str_leaf l2) || str_in (str_leaf l2) (str_leaf l1)).
Proof.
  rewrite should_compare_fields_outcome, gate_value_strings.
  change ("/" +:+ l1) with (String "/" l1). change ("/" +:+ l2) with (String "/" l2).
  by rewrite !str_nonempty_app, !str_leaf_app.
Qed.

(** X7: on two strings the gate never logs at level ERROR: [split] and
    [lower] cannot fail on a [str], so the [except] branch is dead for
    well-typed identifiers. *)
Theorem should_compare_fields_str_no_error (c r : string) :
  existsb is_error_log (trace (should_compare_fields (AStr c) (AStr r))) = false.
Proof.
  unfold should_compare_fields.
  destruct (negb (truthy (AStr c)) || negb (truthy (AStr r))); [reflexivity|].
  destruct (py_eq (AStr c) (AStr r)); [reflexivity|].
  unfold leaf_rules. rewrite !leaf_name_leaf. cbn.
  destruct (String.eqb (str_leaf c) (str_leaf r)); [reflexivity|].
  cbn. by destruct (str_in (str_leaf c) (str_leaf r) || str_in (str_leaf r) (str_leaf c)).
Qed.

Example gate_bytes_logs_error :
  existsb is_error_log (trace (should_compare_fields (AStr "a/foo") (ABytes ["b"%char])))
  = true.
Proof. reflexivity. Qed.

(** ** Vector extraction *)

(** X8: [extract_statistics] depends on the record only through the keys
    [min], [max], [mean], [median], [stdDev], [uniqueCount], [nullCount] and
    [percentiles]: two records that agree on these give the same result,
    whatever else they hold (top-level [p25], [p50], [p75] included). *)
Theorem extract_statistics_recognised_keys (s1 s2 : gmap string pyval) :
  (∀ k, k ∈ statistics_keys → s1 !! k = s2 !! k) →
  extract_statistics s1 = extract_statistics s2.
Proof.
  intros Hkeys.
  assert (Hget : ∀ k d, k ∈ statistics_keys → dict_get s1 k d = dict_get s2 k d).
  { intros k d Hk. unfold dict_get. by rewrite (Hkeys k Hk). }
  unfold extract_statistics.
  rewrite !Hget by key_listed.
  reflexivity.
Qed.

Lemma extract_statistics_recognised_keys_witness :
  extract_statistics {[ "min" := num 1; "p25" := num 9; "comment" := PyNone ]}
  = extract_statistics {[ "min" := num 1 ]}.
Proof.
  apply (extract_statistics_recognised_keys
           {[ "min" := num 1; "p25" := num 9; "comment" := PyNone ]} {[ "min" := num 1 ]}).
  intros k Hk. in_key_list Hk.
Defined.

(** [extract_percentiles] depends on the record only through the
    top-level keys [p25], [p50] and [p75]. *)
Theorem extract_percentiles_recognised_keys (s1 s2 : gmap string pyval) :
  (∀ k, k ∈ percentile_keys → s1 !! k = s2 !! k) →
  extract_percentiles s1 = extract_percentiles s2.
Proof.
  intros Hkeys. unfold extract_percentiles, dict_get.
  rewrite !Hkeys by key_listed.
  reflexivity.
Qed.

Lemma extract_percentiles_recognised_keys_witness :
  extract_percentiles (<[ "p50" := num 7 ]> (api_record 1 2 3))
  = extract_percentiles {[ "p50" := num 7 ]}.
Proof.
  apply (extract_percentiles_recognised_keys
           (<[ "p50" := num 7 ]> (api_record 1 2 3)) {[ "p50" := num 7 ]}).
  intros k Hk. in_key_list Hk.
Defined.

Lemma extract_statistics_not_dict stats :
  percentiles_ok stats = false → extract_statistics stats = inl AttributeError.
Proof.
  unfold percentiles_ok, extract_statistics, dict_get.
  by destruct (stats !! "percentiles") as [[| | |d]|].
Qed.

Lemma extract_statistics_returns stats :
  percentiles_ok stats = true →
  ∃ vec, extract_statistics stats = inr vec ∧ length vec = 10.
Proof.
  unfold percentiles_ok, extract_statistics, dict_get.
  destruct (stats !! "percentiles") as [[| | |d]|]; simpl; try discriminate;
    by eexists.
Qed.

(** X9: [extract_statistics] raises exactly when the record has a
    ["percentiles"] entry that is not a [dict], and then it raises
    [AttributeError]; in every other case, whatever the types of the other
    values, it returns a list of length 10. *)
Theorem extract_statistics_error_condition (stats : gmap string pyval) :
  if percentiles_ok stats
  then ∃ vec, extract_statistics stats = inr vec ∧ length vec = 10
  else extract_statistics stats = inl AttributeError.
Proof.
  destruct (percentiles_ok stats) eqn:Hok;
    [by apply extract_statistics_returns | by apply extract_statistics_not_dict].
Qed.

(** ** The orchestrator *)

Lemma extract_statistics_numeric stats :
  statistics_record stats = true →
  ∃ v, extract_statistics stats = inr v ∧ forallb is_num v = true.
Proof.
  intros Hrec.
  destruct (statistics_record_percentiles stats Hrec) as [Hsub Hnum].
  unfold extract_statistics. rewrite Hsub. simpl.
  eexists. split; [reflexivity|]. simpl.
  rewrite !statistics_record_metric, !numeric_dict_get by done.
  reflexivity.
Qed.

(** X10: an extraction failure escapes [compare_statistics].  When an
    identifier is omitted and the ["percentiles"] entry of either record is
    not a [dict], the call raises [AttributeError]; the candidate is
    extracted first, the root only if the candidate succeeded, and the engine
    is never called. *)
Theorem compare_statistics_extraction_error (wasserstein_distance : engine)
    (s1 s2 : gmap string pyval) (supplied : pyarg) :
  percentiles_ok s1 && percentiles_ok s2 = false →
  let expected :=
    (Call "extract_statistics"
       :: (if percentiles_ok s1 then [Call "extract_statistics"] else []),
     inl AttributeError) in
  compare_statistics wasserstein_distance s1 s2 ANone supplied = expected
  ∧ compare_statistics wasserstein_distance s1 s2 supplied ANone = expected.
Proof.
  intros Hbad expected. subst expected.
  unfold compare_statistics; simpl. rewrite andb_false_r.
  enough (compare_full_vectors wasserstein_distance s1 s2
          = (Call "extract_statistics"
               :: (if percentiles_ok s1 then [Call "extract_statistics"] else []),
             inl AttributeError)) by done.
  unfold compare_full_vectors.
  destruct (percentiles_ok s1) eqn:Hs1; simpl in Hbad.
  - destruct (extract_statistics_returns s1 Hs1) as (v1 & -> & _).
    by rewrite (extract_statistics_not_dict s2 Hbad).
  - by rewrite (extract_statistics_not_dict s1 Hs1).
Qed.

Lemma compare_statistics_extraction_error_witness :
  compare_statistics example_engine {[ "percentiles" := PyNone ]} ∅ ANone (AStr "b/bar")
  = ([Call "extract_statistics"], inl AttributeError)
  ∧ compare_statistics example_engine {[ "percentiles" := PyNone ]} ∅ (AStr "b/bar") ANone
    = ([Call "extract_statistics"], inl AttributeError).
Proof.
  exact (compare_statistics_extraction_error example_engine
           {[ "percentiles" := PyNone ]} ∅ (AStr "b/bar") eq_refl).
Defined.

(** X11: when both identifiers are supplied and the gate answers [True],
    [compare_statistics] gives what the ungated comparison gives: the
    engine's distance between the two full vectors, or the exception of the
    extraction.  Its trace is the gate's, followed by that of the ungated
    comparison. *)
Theorem compare_statistics_gate_accepts (wasserstein_distance : engine)
    (s1 s2 : gmap string pyval) (c r : pyarg) :
  c ≠ ANone → r ≠ ANone →
  outcome (should_compare_fields c r) = inr true →
  outcome (compare_statistics wasserstein_distance s1 s2 c r)
  = direct_distance wasserstein_distance s1 s2
  ∧ trace (compare_statistics wasserstein_distance s1 s2 c r)
    = Call "should_compare_fields" :: trace (should_compare_fields c r)
      ++ trace (compare_statistics wasserstein_distance s1 s2 ANone ANone).
Proof.
  intros Hc Hr Hgate.
  assert (Hsome : is_not_None c && is_not_None r = true) by by destruct c, r.
  rewrite <- compare_full_vectors_outcome.
  unfold compare_statistics, call. rewrite Hsome.
  generalize (compare_full_vectors wasserstein_distance s1 s2). intros [t' o].
  destruct (should_compare_fields c r) as [t [e|similar]]; [discriminate|].
  injection Hgate as ->. done.
Qed.

Lemma compare_statistics_gate_accepts_witness :
  outcome (compare_statistics example_engine (api_record 1 2 3) (api_record 4 5 6)
             (AStr "x/name") (AStr "y/surname"))
  = direct_distance example_engine (api_record 1 2 3) (api_record 4 5 6)
  ∧ trace (compare_statistics example_engine (api_record 1 2 3) (api_record 4 5 6)
             (AStr "x/name") (AStr "y/surname"))
    = Call "should_compare_fields"
      :: trace (should_compare_fields (AStr "x/name") (AStr "y/surname"))
      ++ trace (compare_statistics example_engine (api_record 1 2 3) (api_record 4 5 6)
                  ANone ANone).
Proof.
  apply (compare_statistics_gate_accepts example_engine (api_record 1 2 3) (api_record 4 5 6)
           (AStr "x/name") (AStr "y/surname")); [discriminate | discriminate | reflexivity].
Defined.

(** X12: on two statistics records of the data model the extraction never
    fails, so [compare_statistics] returns the sentinel when it stops at the
    gate and otherwise exactly what the engine gives on two vectors of ten
    numbers: every exception, and every infinity of an ungated comparison,
    is the engine's own. *)
Theorem compare_statistics_on_records (wasserstein_distance : engine)
    (s1 s2 : gmap string pyval) (c r : pyarg) :
  statistics_record s1 = true → statistics_record s2 = true →
  ∃ v1 v2,
    extract_statistics s1 = inr v1 ∧ extract_statistics s2 = inr v2
    ∧ length v1 = 10 ∧ length v2 = 10
    ∧ forallb is_num v1 = true ∧ forallb is_num v2 = true
    ∧ outcome (compare_statistics wasserstein_distance s1 s2 c r)
      = if gated_out c r then inr PosInf else wasserstein_distance v1 v2.
Proof.
  intros (v1 & E1 & Hnum1)%extract_statistics_numeric
         (v2 & E2 & Hnum2)%extract_statistics_numeric.
  destruct (extract_statistics_returns s1) as (v1' & E1' & Hlen1).
  { unfold percentiles_ok, extract_statistics, dict_get in *.
    by destruct (s1 !! "percentiles") as [[| | |d]|]. }
  destruct (extract_statistics_returns s2) as (v2' & E2' & Hlen2).
  { unfold percentiles_ok, extract_statistics, dict_get in *.
    by destruct (s2 !! "percentiles") as [[| | |d]|]. }
  assert (v1' = v1) as -> by congruence. assert (v2' = v2) as -> by congruence.
  exists v1, v2. repeat (split; [done|]).
  assert (Hfull : outcome (compare_full_vectors wasserstein_distance s1 s2)
                  = wasserstein_distance v1 v2).
  { rewrite compare_full_vectors_outcome. unfold direct_distance. by rewrite E1, E2. }
  pose proof (should_compare_fields_outcome c r) as Hgate.
  unfold gated_out, compare_statistics, call.
  destruct (is_not_None c && is_not_None r); [|exact Hfull].
  revert Hfull. generalize (compare_full_vectors wasserstein_distance s1 s2).
  intros [t' o] Hfull.
  destruct (should_compare_fields c r) as [t [e|similar]]; [discriminate|].
  by destruct similar.
Qed.

Lemma compare_statistics_on_records_witness :
  ∃ v1 v2,
    extract_statistics (api_record 1 2 3) = inr v1
    ∧ extract_statistics partial_record = inr v2
    ∧ length v1 = 10 ∧ length v2 = 10
    ∧ forallb is_num v1 = true ∧ forallb is_num v2 = true
    ∧ outcome (compare_statistics example_engine (api_record 1 2 3) partial_record
                 (AStr "x/name") (AStr "y/surname"))
      = if gated_out (AStr "x/name") (AStr "y/surname") then inr PosInf
        else example_engine v1 v2.
Proof.
  apply (compare_statistics_on_records example_engine (api_record 1 2 3) partial_record
           (AStr "x/name") (AStr "y/surname")); vm_compute; reflexivity.
Defined.

(** X13: [compare_percentiles] reads the top level only and is never gated.
    Whatever is stored under ["percentiles"] in either record (a [dict] or
    not) leaves the whole run unchanged, and every run calls
    [extract_percentiles] twice and then the engine, never the gate. *)
Theorem compare_percentiles_ignores_nested (wasserstein_distance : engine)
    (c r : gmap string pyval) (v : pyval) :
  compare_percentiles wasserstein_distance (<["percentiles" := v]> c) r
  = compare_percentiles wasserstein_distance c r
  ∧ compare_percentiles wasserstein_distance c (<["percentiles" := v]> r)
    = compare_percentiles wasserstein_distance c r
  ∧ calls (trace (compare_percentiles wasserstein_distance c r))
    = ["extract_percentiles"; "extract_percentiles"; "wasserstein_distance"].
Proof.
  assert (Hsame : ∀ s : gmap string pyval,
             extract_percentiles (<["percentiles" := v]> s) = extract_percentiles s).
  { intros s. unfold extract_percentiles, dict_get. by rewrite !lookup_insert_ne. }
  unfold compare_percentiles. rewrite !Hsame.
  split; [reflexivity|]. split; [reflexivity|].
  generalize (extract_percentiles c) (extract_percentiles r). intros u w.
  cbn. by destruct (wasserstein_distance u w).
Qed.

(** X14: records that carry their percentiles only in the nested
    sub-mapping, the shape [extract_statistics] reads, all look alike to
    [compare_percentiles]: with no top-level [p25], [p50], [p75] on either
    side both vectors are [[0, 0, 0]], the result is what the engine gives
    on these two vectors, and so it is 0 for an engine that puts a vector at
    distance 0 from itself there. *)
Theorem compare_percentiles_nested_only (wasserstein_distance : engine)
    (c r : gmap string pyval) :
  (∀ k, k ∈ percentile_keys → c !! k = None ∧ r !! k = None) →
  outcome (compare_percentiles wasserstein_distance c r)
  = wasserstein_distance zero_vector zero_vector
  ∧ (wasserstein_distance zero_vector zero_vector = inr (Finite (Q2Qc 0))
     → outcome (compare_percentiles wasserstein_distance c r) = inr (Finite (Q2Qc 0))).
Proof.
  intros Hnone.
  assert (Hzero : ∀ s : gmap string pyval,
             (∀ k, k ∈ percentile_keys → s !! k = None) →
             extract_percentiles s = zero_vector).
  { intros s Hs. unfold extract_percentiles, dict_get.
    by rewrite !Hs by key_listed. }
  assert (Hrun : outcome (compare_percentiles wasserstein_distance c r)
                 = wasserstein_distance zero_vector zero_vector).
  { unfold compare_percentiles.
    rewrite (Hzero c), (Hzero r) by (intros k Hk; by destruct (Hnone k Hk)).
    cbn. by destruct (wasserstein_distance zero_vector zero_vector). }
  split; [exact Hrun | by intros <-].
Qed.

Lemma compare_percentiles_nested_only_witness :
  outcome (compare_percentiles example_engine (api_record 1 2 3) (api_record 40 50 60))
  = inr (Finite (Q2Qc 0)).
Proof.
  apply (compare_percentiles_nested_only example_engine
           (api_record 1 2 3) (api_record 40 50 60)).
  - intros k Hk. split; in_key_list Hk.
  - vm_compute. reflexivity.
Defined.

Example compare_statistics_nested_differs :
  outcome (compare_statistics example_engine (api_record 1 2 3) (api_record 40 50 60)
             ANone ANone)
  ≠ inr (Finite (Q2Qc 0)).
Proof. vm_compute. intros [=]. Qed.

(** ** The distance engine *)

Lemma merge_sort_Permutation_eq (A A' : list Qc) :
  A ≡ₚ A' → merge_sort Qcle A = merge_sort Qcle A'.
Proof.
  intros HA. apply (Sorted_unique Qcle).
  - apply (Sorted_merge_sort _).
  - apply (Sorted_merge_sort _).
  - by rewrite !merge_sort_Permutation.
Qed.

Lemma walk_nonneg (a b breakpoints : list Qc) : (Q2Qc 0 ≤ walk a b breakpoints)%Qc.
Proof.
  induction breakpoints as [|x [|y rest] IH]; [apply Qcle_refl..|].
  change (Q2Qc 0 ≤ [(y - x) * (fraction a x - fraction b x)] + walk a b (y :: rest))%Qc.
  rewrite <- (Qcplus_0_l (Q2Qc 0)).
  apply Qcplus_le_compat; [apply Qcabs_nonneg | exact IH].
Qed.

(** X15: the distance is never negative. *)
Theorem distance_nonneg (A B : list Qc) : (Q2Qc 0 ≤ distance A B)%Qc.
Proof. apply walk_nonneg. Qed.

(** X16: the distance depends on each vector only up to the order of its
    elements: permuting either argument does not change it.  The position
    of a value in a feature vector therefore has no influence on the score. *)
Theorem distance_Permutation (A A' B B' : list Qc) :
  A ≡ₚ A' → B ≡ₚ B' → distance A B = distance A' B'.
Proof.
  intros HA HB. unfold distance.
  by rewrite (merge_sort_Permutation_eq A A' HA), (merge_sort_Permutation_eq B B' HB).
Qed.

Lemma distance_Permutation_witness :
  distance [Qc_of_Z 0; Qc_of_Z 1; Qc_of_Z 3] [Qc_of_Z 5; Qc_of_Z 6; Qc_of_Z 8]
  = distance [Qc_of_Z 1; Qc_of_Z 0; Qc_of_Z 3] [Qc_of_Z 5; Qc_of_Z 8; Qc_of_Z 6].
Proof.
  apply (distance_Permutation
           [Qc_of_Z 0; Qc_of_Z 1; Qc_of_Z 3] [Qc_of_Z 1; Qc_of_Z 0; Qc_of_Z 3]
           [Qc_of_Z 5; Qc_of_Z 6; Qc_of_Z 8] [Qc_of_Z 5; Qc_of_Z 8; Qc_of_Z 6]).
  - apply perm_swap.
  - apply perm_skip, perm_swap.
Defined.

(** The float64 reading of the walk agrees with the exact one whenever its
    result is finite. *)
Lemma float64_round_Finite x y : float64_round x = Finite y → y = x.
Proof. unfold float64_round. repeat case_decide; congruence. Qed.

Lemma float64_add_Finite x y z :
  float64_add x y = Finite z → ∃ a b, x = Finite a ∧ y = Finite b ∧ z = (a + b)%Qc.
Proof.
  destruct x as [a| | |], y as [b| | |]; try discriminate.
  intros ->%float64_round_Finite. by exists a, b.
Qed.

Lemma float64_mul_Finite w step z :
  float64_mul w step = Finite z → ∃ d, step = Finite d ∧ z = (w * d)%Qc.
Proof.
  destruct step as [d| | |]; simpl; try discriminate; try (case_decide; discriminate).
  intros ->%float64_round_Finite. by exists d.
Qed.

Lemma float64_walk_Finite (a b breakpoints : list Qc) (z : Qc) :
  Sorted Qcle breakpoints →
  float64_walk a b breakpoints = Finite z → z = walk a b breakpoints.
Proof.
  revert z. induction breakpoints as [|x [|y rest] IH]; intros z Hsorted.
  - by intros [= <-].
  - by intros [= <-].
  - change (float64_add
              (float64_mul [fraction a x - fraction b x]%Qc (float64_round (y - x)))
              (float64_walk a b (y :: rest)) = Finite z
            → z = ([(y - x) * (fraction a x - fraction b x)] + walk a b (y :: rest))%Qc).
    intros (m & r & (d & Hd%float64_round_Finite & ->)%float64_mul_Finite & Hr & ->)
      %float64_add_Finite.
    apply Sorted_inv in Hsorted as [Hrest Hhd]. apply HdRel_inv in Hhd.
    rewrite (IH r Hrest Hr), Qcabs_Qcmult, Hd. f_equal.
    rewrite (Qcabs_pos (y - x)); [ring|].
    unfold Qcminus. by apply (proj1 (Qcle_minus_iff x y)).
Qed.

Lemma float64_distance_Finite (A B : list Qc) (z : Qc) :
  float64_distance A B = Finite z → z = distance A B.
Proof.
  apply float64_walk_Finite.
  apply (Sorted_list_merge _); apply (Sorted_merge_sort _).
Qed.

Example float64_distance_example :
  float64_distance [Qc_of_Z 0; Qc_of_Z 1; Qc_of_Z 3] [Qc_of_Z 5; Qc_of_Z 6; Qc_of_Z 8]
  = Finite (Qc_of_Z 5).
Proof. vm_compute. f_equal. apply Qc_is_canon. reflexivity. Qed.

Example float64_distance_nan :
  float64_distance [Qc_of_Z (- float64_max); Qc_of_Z float64_max]
    [Qc_of_Z (- float64_max); Qc_of_Z float64_max] = NaN.
Proof. vm_compute. reflexivity. Qed.

(** * Properties of the producer *)

Import Producer.

Lemma effects_bind {A B} (m : IO A) (k : A → IO B) :
  effects (m ≫= k)
  = effects m ++ match result m with inr a => effects (k a) | inl _ => [] end.
Proof.
  destruct m as [t [e|a]]; cbn; [by rewrite app_nil_r|].
  by destruct (k a).
Qed.

Lemma result_bind {A B} (m : IO A) (k : A → IO B) :
  result (m ≫= k)
  = match result m with inr a => result (k a) | inl e => inl e end.
Proof. destruct m as [t [e|a]]; cbn; [reflexivity|]. by destruct (k a). Qed.

Lemma raise_for_status_result resp :
  result (raise_for_status resp)
  = if status_ok resp then inr tt else inl (HTTPError (status_code resp)).
Proof.
  unfold raise_for_status, status_ok.
  destruct (400 <=? status_code resp)%Z eqn:E1, (status_code resp <? 600)%Z eqn:E2;
    cbn; try reflexivity; destruct (status_code resp <? 400)%Z eqn:E3,
    (600 <=? status_code resp)%Z eqn:E4; try reflexivity; lia.
Qed.

Lemma raise_for_status_effects resp : effects (raise_for_status resp) = [].
Proof. unfold raise_for_status. by destruct (_ && _). Qed.

(** X18: [get_keycloak_token] validates its configuration before it talks
    to anyone: if one of [KEYCLOAK_TOKEN_URL], [KEYCLOAK_CLIENT_ID],
    [ADMIN_USERNAME], [ADMIN_PASSWORD] is unset or empty it raises
    [ValueError] and sends no request. *)
Theorem get_keycloak_token_unconfigured (w : world) (environ : gmap string string)
    (name : string) :
  name ∈ keycloak_variables → configured (environ !! name) = false →
  get_keycloak_token w environ
  = ([], inl (ValueError "Missing required Keycloak environment variables.")).
Proof.
  intros Hname Hunset. unfold get_keycloak_token.
  enough (forallb configured
            [environ !! "KEYCLOAK_TOKEN_URL"; environ !! "KEYCLOAK_CLIENT_ID";
             environ !! "ADMIN_USERNAME"; environ !! "ADMIN_PASSWORD"] = false)
    as -> by reflexivity.
  unfold keycloak_variables in Hname. simpl.
  repeat (apply elem_of_cons in Hname as [->|Hname];
          [rewrite Hunset; by rewrite ?andb_false_r|]).
  by apply elem_of_nil in Hname.
Qed.

Lemma get_keycloak_token_unconfigured_witness :
  get_keycloak_token (example_world true) (<[ "ADMIN_PASSWORD" := "" ]> example_environ)
  = ([], inl (ValueError "Missing required Keycloak environment variables.")).
Proof.
  apply (get_keycloak_token_unconfigured (example_world true)
           (<[ "ADMIN_PASSWORD" := "" ]> example_environ) "ADMIN_PASSWORD");
    [key_listed | reflexivity].
Defined.

(** X19: [get_keycloak_token] returns a token exactly when the four
    variables are configured, the POST of the password grant to
    [KEYCLOAK_TOKEN_URL] is answered, the status is neither 4xx nor 5xx, and
    the body is a JSON object with an ["access_token"] member; the value of
    that member is what it returns. *)
Theorem get_keycloak_token_success (w : world) (environ : gmap string string)
    (token : pyval) :
  result (get_keycloak_token w environ) = inr token
  ↔ forallb (λ name, configured (environ !! name)) keycloak_variables = true
    ∧ ∃ resp d,
        requests_post w (the (environ !! "KEYCLOAK_TOKEN_URL")) (password_grant environ)
        = inr resp
        ∧ status_ok resp = true
        ∧ json resp = inr (PyDict d)
        ∧ d !! "access_token" = Some token.
Proof.
  unfold get_keycloak_token, password_grant. simpl forallb.
  destruct (configured (environ !! "KEYCLOAK_TOKEN_URL") && _) eqn:Hconf; simpl negb; cbv iota.
  2:{ split; [discriminate | by intros [? _]]. }
  rewrite result_bind. unfold post, result at 1; simpl snd.
  destruct (requests_post w _ _) as [e|resp] eqn:Hpost.
  { split; [discriminate | intros (_ & r & d & Hr & _); congruence]. }
  rewrite result_bind, raise_for_status_result.
  destruct (status_ok resp) eqn:Hok.
  2:{ split; [discriminate | intros (_ & r & d & Hr & Hs & _); congruence]. }
  rewrite result_bind. unfold lift, result; simpl snd.
  destruct (json resp) as [e|token_data] eqn:Hjson.
  { split; [discriminate | intros (_ & r & d & Hr & _ & Hj & _); congruence]. }
  unfold subscript.
  split.
  - destruct token_data as [| | |d]; try discriminate.
    destruct (d !! "access_token") as [v|] eqn:Hd; [|discriminate].
    intros [= ->]. split; [reflexivity|]. by exists resp, d.
  - intros (_ & r & d & Hr & _ & Hj & Hd).
    assert (r = resp) as -> by congruence.
    assert (token_data = PyDict d) as -> by congruence.
    by rewrite Hd.
Qed.

Lemma get_keycloak_token_success_witness :
  result (get_keycloak_token (example_world true) example_environ) = inr (PyStr "tok").
Proof.
  apply (get_keycloak_token_success (example_world true) example_environ (PyStr "tok")).
  split; [reflexivity|].
  exists token_response, {[ "access_token" := PyStr "tok"; "expires_in" := num 300 ]}.
  repeat split.
Defined.

Lemma get_keycloak_token_effects w environ ev :
  ev ∈ effects (get_keycloak_token w environ) →
  ev = Post (the (environ !! "KEYCLOAK_TOKEN_URL")) (password_grant environ).
Proof.
  unfold get_keycloak_token. cbv zeta.
  destruct (negb _); cbv iota; [by intros ?%elem_of_nil|].
  rewrite effects_bind. unfold post at 1, effects at 1. simpl fst.
  intros [Hin|Hin]%elem_of_app; [by apply list_elem_of_singleton in Hin|].
  exfalso. revert Hin. unfold post, result; simpl snd.
  destruct (requests_post w _ _) as [e|resp]; cbv beta iota;
    [by intros ?%elem_of_nil|].
  rewrite effects_bind, raise_for_status_effects, raise_for_status_result. simpl.
  destruct (status_ok resp); cbv beta iota; [|by intros ?%elem_of_nil].
  destruct (json resp); by intros ?%elem_of_nil.
Qed.

Lemma get_candidate_search_status_effects w environ org exp token ev :
  ev ∈ effects (get_candidate_search_status w environ org exp token) →
  ev = Get (urljoin w (default "http://localhost" (environ !! "API_BASE_URL"))
              ("/api/fedml-experiments/" +:+ org +:+ "/" +:+ exp
               +:+ "/candidate_search_status"))
           {[ "Authorization" := "Bearer " +:+ format w token ]}.
Proof.
  unfold get_candidate_search_status. cbv zeta.
  rewrite effects_bind. unfold get at 1, effects at 1. simpl fst.
  intros [Hin|Hin]%elem_of_app; [by apply list_elem_of_singleton in Hin|].
  exfalso. revert Hin. unfold get, result; simpl snd.
  destruct (requests_get w _ _) as [e|resp]; cbv beta iota;
    [by intros ?%elem_of_nil|].
  rewrite effects_bind, raise_for_status_effects, raise_for_status_result. simpl.
  destruct (status_ok resp); by intros ?%elem_of_nil.
Qed.

(** X20: [main] checks [ORGANIZATION_ID] and [EXPERIMENT_ID] first: if
    either is unset or empty it raises [ValueError] without any request to
    Keycloak, to the API or to the broker. *)
Theorem main_unconfigured (w : world) (environ : gmap string string) :
  configured (environ !! "ORGANIZATION_ID") = false
  ∨ configured (environ !! "EXPERIMENT_ID") = false →
  main w environ
  = ([], inl (ValueError "Missing ORGANIZATION_ID or EXPERIMENT_ID in environment variables.")).
Proof.
  intros Hunset. unfold main.
  by destruct Hunset as [-> | ->]; rewrite ?orb_true_r.
Qed.

Lemma main_unconfigured_witness :
  main (example_world true) (delete "EXPERIMENT_ID" example_environ)
  = ([], inl (ValueError "Missing ORGANIZATION_ID or EXPERIMENT_ID in environment variables.")).
Proof.
  apply (main_unconfigured (example_world true) (delete "EXPERIMENT_ID" example_environ)).
  by right.
Defined.

(** X21: a call of [publish_to_rabbitmq] with a [RABBITMQ_PORT] that [int]
    rejects raises before the broker is contacted: no connection is opened. *)
Theorem publish_to_rabbitmq_invalid_port (w : world) (environ : gmap string string)
    (message : pyval) (e : error) :
  int w (default "5672" (environ !! "RABBITMQ_PORT")) = inl e →
  publish_to_rabbitmq w environ message = ([], inl e).
Proof. intros Hport. unfold publish_to_rabbitmq. by rewrite Hport. Qed.

Lemma publish_to_rabbitmq_invalid_port_witness :
  publish_to_rabbitmq (example_world true) {[ "RABBITMQ_PORT" := "amqp" ]} PyNone
  = ([], inl (ValueError "invalid literal for int() with base 10")).
Proof.
  apply (publish_to_rabbitmq_invalid_port (example_world true)
           {[ "RABBITMQ_PORT" := "amqp" ]} PyNone).
  reflexivity.
Defined.

(** The runs of [publish_to_rabbitmq] once the port is parsed, by the first
    broker operation that fails. *)
Lemma publish_to_rabbitmq_cases w environ message port :
  int w (default "5672" (environ !! "RABBITMQ_PORT")) = inr port →
  let host := default "localhost" (environ !! "RABBITMQ_HOST") in
  let queue := default "queue_A" (environ !! "RABBITMQ_QUEUE") in
  let body := json_dumps w message in
  let ops := [Amqp (BlockingConnection host port); Amqp channel;
              Amqp (queue_declare queue true); Amqp (basic_publish "" queue body 2);
              Print queue host port body; Amqp close] in
  ∃ n, effects (publish_to_rabbitmq w environ message) = take n ops
       ∧ (n ≤ 6)%nat
       ∧ (result (publish_to_rabbitmq w environ message) = inr tt → n = 6%nat)
       ∧ (n = 6%nat → result (publish_to_rabbitmq w environ message)
                       = match pika w close with Some e => inl e | None => inr tt end).
Proof.
  intros Hport host queue body ops. subst ops.
  unfold publish_to_rabbitmq. fold host queue body. rewrite Hport. unfold lift, amqp, print.
  cbn.
  destruct (pika w (BlockingConnection host port));
    [exists 1%nat; repeat split; (lia || done)|].
  destruct (pika w channel); [exists 2%nat; repeat split; (lia || done)|].
  destruct (pika w (queue_declare queue true));
    [exists 3%nat; repeat split; (lia || done)|].
  destruct (pika w (basic_publish "" queue body 2));
    [exists 4%nat; repeat split; (lia || done)|].
  cbn. exists 6%nat. by destruct (pika w close).
Qed.

Lemma get_keycloak_token_run w environ :
  (effects (get_keycloak_token w environ) = []
   ∧ ∃ e, result (get_keycloak_token w environ) = inl e)
  ∨ effects (get_keycloak_token w environ)
    = [Post (the (environ !! "KEYCLOAK_TOKEN_URL")) (password_grant environ)].
Proof.
  unfold get_keycloak_token, password_grant, raise_for_status, post, lift, raise.
  cbv zeta.
  destruct (negb (forallb _ _)); cbv iota; [left; by eauto|]. right.
  destruct (requests_post w _ _) as [e|resp]; [reflexivity|]. cbn.
  destruct ((400 <=? status_code resp)%Z && (status_code resp <? 600)%Z);
    [reflexivity|].
  cbn. by destruct (json resp).
Qed.

Lemma get_candidate_search_status_run w environ org exp token :
  kind_of <$> effects (get_candidate_search_status w environ org exp token) = [KGet].
Proof.
  unfold get_candidate_search_status, raise_for_status, get, lift, raise.
  cbv zeta.
  destruct (requests_get w _ _) as [e|resp]; [reflexivity|]. cbn.
  by destruct ((400 <=? status_code resp)%Z && (status_code resp <? 600)%Z).
Qed.

Lemma publish_to_rabbitmq_run w environ message :
  kind_of <$> effects (publish_to_rabbitmq w environ message)
    `prefix_of` [KConnect; KChannel; KDeclare; KPublish; KPrint; KClose]
  ∧ (result (publish_to_rabbitmq w environ message) = inr tt
     → kind_of <$> effects (publish_to_rabbitmq w environ message)
       = [KConnect; KChannel; KDeclare; KPublish; KPrint; KClose]).
Proof.
  destruct (int w (default "5672" (environ !! "RABBITMQ_PORT"))) as [e|port] eqn:Hport.
  - unfold publish_to_rabbitmq. rewrite Hport.
    split; [by eexists | discriminate].
  - destruct (publish_to_rabbitmq_cases w environ message port Hport)
      as (n & -> & _ & Hret & _).
    split.
    + do 7 (destruct n as [|n]; [by eexists|]). by exists [].
    + by intros ->%Hret.
Qed.

(** X22: [main] does its input and output in one fixed order and stops at
    the first failure: token request, status request, connection, channel,
    queue declaration, publication, the printed line, close.  The effects of
    every run are an initial segment of that sequence, and a run that
    returns has gone through all of it. *)
Theorem main_io_order (w : world) (environ : gmap string string) :
  kind_of <$> effects (main w environ) `prefix_of` full_run
  ∧ (result (main w environ) = inr tt
     → kind_of <$> effects (main w environ) = full_run).
Proof.
  unfold main. cbv zeta.
  destruct (negb (configured _) || _); cbv iota;
    [split; [by eexists | discriminate]|].
  rewrite effects_bind, result_bind.
  destruct (get_keycloak_token_run w environ) as [[-> [e ->]] | ->].
  { split; [by eexists | discriminate]. }
  destruct (result (get_keycloak_token w environ)) as [e|token].
  { split; [by eexists | discriminate]. }
  rewrite effects_bind, result_bind, !fmap_app, get_candidate_search_status_run.
  destruct (result (get_candidate_search_status w environ _ _ token)) as [e|status].
  { split; [by eexists | discriminate]. }
  destruct (publish_to_rabbitmq_run w environ status) as [[rest Hrest] Hret].
  split.
  - exists rest. unfold full_run. by rewrite Hrest.
  - intros Hok. by rewrite (Hret Hok).
Qed.

Lemma main_io_order_witness :
  kind_of <$> effects (main (example_world true) example_environ) = full_run.
Proof.
  apply (proj2 (main_io_order (example_world true) example_environ)).
  vm_compute. reflexivity.
Defined.

(** Where an effect of a run of [main] comes from. *)
Lemma main_effects_inv w environ ev :
  ev ∈ effects (main w environ) →
  ev = Post (the (environ !! "KEYCLOAK_TOKEN_URL")) (password_grant environ)
  ∨ ∃ token, result (get_keycloak_token w environ) = inr token
      ∧ (ev = Get (status_url w environ)
                {[ "Authorization" := "Bearer " +:+ format w token ]}
         ∨ ∃ status,
             result (get_candidate_search_status w environ
                       (the (environ !! "ORGANIZATION_ID"))
                       (the (environ !! "EXPERIMENT_ID")) token) = inr status
             ∧ ev ∈ effects (publish_to_rabbitmq w environ status)).
Proof.
  unfold main. cbv zeta.
  destruct (negb (configured _) || _); cbv iota; [by intros ?%elem_of_nil|].
  rewrite effects_bind.
  intros [Hin|Hin]%elem_of_app; [left; by apply get_keycloak_token_effects in Hin|].
  right.
  destruct (result (get_keycloak_token w environ)) as [e|token];
    [by apply elem_of_nil in Hin|].
  exists token. split; [reflexivity|].
  rewrite effects_bind in Hin.
  apply elem_of_app in Hin as [Hin|Hin];
    [left; by apply get_candidate_search_status_effects in Hin|].
  right.
  destruct (result (get_candidate_search_status w environ _ _ token)) as [e|status];
    [by apply elem_of_nil in Hin|].
  by exists status.
Qed.

Lemma publish_to_rabbitmq_effects_inv w environ message ev :
  ev ∈ effects (publish_to_rabbitmq w environ message) →
  ∃ port, int w (default "5672" (environ !! "RABBITMQ_PORT")) = inr port
    ∧ ev ∈ [Amqp (BlockingConnection (default "localhost" (environ !! "RABBITMQ_HOST")) port);
            Amqp channel;
            Amqp (queue_declare (default "queue_A" (environ !! "RABBITMQ_QUEUE")) true);
            Amqp (basic_publish "" (default "queue_A" (environ !! "RABBITMQ_QUEUE"))
                    (json_dumps w message) 2);
            Print (default "queue_A" (environ !! "RABBITMQ_QUEUE"))
              (default "localhost" (environ !! "RABBITMQ_HOST")) port
              (json_dumps w message);
            Amqp close].
Proof.
  destruct (int w (default "5672" (environ !! "RABBITMQ_PORT"))) as [e|port] eqn:Hport.
  - unfold publish_to_rabbitmq. rewrite Hport. by intros ?%elem_of_nil.
  - destruct (publish_to_rabbitmq_cases w environ message port Hport) as (n & -> & _).
    intros Hin. exists port. split; [reflexivity|].
    eapply subseteq_take, Hin.
Qed.

(** X23: [main] publishes nothing but the status it was given.  If a run
    publishes a message, then Keycloak returned a token, the API returned a
    status for that token, and the message is the JSON text of that status,
    sent persistently (delivery mode 2) through the default exchange to the
    queue named by [RABBITMQ_QUEUE] (default [queue_A]). *)
Theorem main_publishes_status (w : world) (environ : gmap string string)
    (exchange routing_key body : string) (delivery_mode : Z) :
  Amqp (basic_publish exchange routing_key body delivery_mode)
    ∈ effects (main w environ) →
  ∃ token status,
    result (get_keycloak_token w environ) = inr token
    ∧ result (get_candidate_search_status w environ
                (the (environ !! "ORGANIZATION_ID"))
                (the (environ !! "EXPERIMENT_ID")) token) = inr status
    ∧ body = json_dumps w status
    ∧ exchange = ""
    ∧ routing_key = default "queue_A" (environ !! "RABBITMQ_QUEUE")
    ∧ delivery_mode = 2%Z.
Proof.
  intros [Hin|(token & Htoken & [Hin|(status & Hstatus & Hin)])]%main_effects_inv;
    [discriminate Hin | discriminate Hin |].
  exists token, status. split; [done|]. split; [done|].
  apply publish_to_rabbitmq_effects_inv in Hin as (port & _ & Hin).
  repeat (apply elem_of_cons in Hin as [Hin|Hin];
          [first [discriminate Hin | by injection Hin as -> -> -> ->]|]).
  by apply elem_of_nil in Hin.
Qed.

Lemma main_publishes_status_witness :
  ∃ token status,
    result (get_keycloak_token (example_world true) example_environ) = inr token
    ∧ result (get_candidate_search_status (example_world true) example_environ
                (the (example_environ !! "ORGANIZATION_ID"))
                (the (example_environ !! "EXPERIMENT_ID")) token) = inr status
    ∧ "{status: RUNNING}" = json_dumps (example_world true) status
    ∧ "" = ""
    ∧ "queue_A" = default "queue_A" (example_environ !! "RABBITMQ_QUEUE")
    ∧ 2%Z = 2%Z.
Proof.
  apply (main_publishes_status (example_world true) example_environ
           "" "queue_A" "{status: RUNNING}" 2).
  apply list_elem_of_In. vm_compute. do 5 right. left. reflexivity.
Defined.

(** X24: [main] asks for the status only with a token it got from
    Keycloak: a GET in a run goes to the candidate-search status address of
    the configured organization and experiment, and its [Authorization]
    header is ["Bearer "] followed by the token Keycloak returned. *)
Theorem main_status_request_uses_token (w : world) (environ : gmap string string)
    (url : string) (headers : gmap string string) :
  Get url headers ∈ effects (main w environ) →
  ∃ token,
    result (get_keycloak_token w environ) = inr token
    ∧ url = status_url w environ
    ∧ headers = {[ "Authorization" := "Bearer " +:+ format w token ]}.
Proof.
  intros [Hin|(token & Htoken & [Hin|(status & Hstatus & Hin)])]%main_effects_inv;
    [discriminate Hin | |].
  - injection Hin as -> ->. by exists token.
  - apply publish_to_rabbitmq_effects_inv in Hin as (port & _ & Hin).
    repeat (apply elem_of_cons in Hin as [Hin|Hin]; [discriminate Hin|]).
    by apply elem_of_nil in Hin.
Qed.

Lemma main_status_request_uses_token_witness :
  ∃ token,
    result (get_keycloak_token (example_world true) example_environ) = inr token
    ∧ "http://localhost/api/fedml-experiments/org1/exp7/candidate_search_status"
      = status_url (example_world true) example_environ
    ∧ {[ "Authorization" := "Bearer tok" ]}
      = ({[ "Authorization" := "Bearer " +:+ format (example_world true) token ]}
           : gmap string string).
Proof.
  apply (main_status_request_uses_token (example_world true) example_environ
           "http://localhost/api/fedml-experiments/org1/exp7/candidate_search_status"
           {[ "Authorization" := "Bearer tok" ]}).
  apply list_elem_of_In. vm_compute. right. left. reflexivity.
Defined.

(** X25: [publish_to_rabbitmq] closes the connection only on the way out of
    a successful publication.  If the call raises although [close] itself
    would succeed, [connection.close()] has not been called, even when the
    connection was opened. *)
Theorem publish_to_rabbitmq_error_no_close (w : world) (environ : gmap string string)
    (message : pyval) (e : error) :
  pika w close = None →
  result (publish_to_rabbitmq w environ message) = inl e →
  existsb is_close (effects (publish_to_rabbitmq w environ message)) = false.
Proof.
  intros Hclose Herr.
  destruct (int w (default "5672" (environ !! "RABBITMQ_PORT"))) as [e'|port] eqn:Hport.
  - unfold publish_to_rabbitmq. by rewrite Hport.
  - destruct (publish_to_rabbitmq_cases w environ message port Hport)
      as (n & Heff & Hle & _ & Hfull).
    rewrite Heff.
    do 6 (destruct n as [|n]; [reflexivity|]).
    destruct n; [|lia].
    rewrite Hfull, Hclose in Herr by reflexivity. discriminate.
Qed.

Lemma publish_to_rabbitmq_error_no_close_witness :
  existsb is_close
    (effects (publish_to_rabbitmq (example_world false) example_environ PyNone)) = false
  ∧ existsb is_connect
      (effects (publish_to_rabbitmq (example_world false) example_environ PyNone)) = true.
Proof.
  split; [|reflexivity].
  apply (publish_to_rabbitmq_error_no_close (example_world false) example_environ PyNone
           (External "AMQPChannelError")); reflexivity.
Defined.
